(** * web.py: the Streamlit shell of the Milvus analytics dashboard

    A shallow embedding of [src/web.py].  The script keeps its state in
    [st.session_state] (a dictionary from attribute names to Python values),
    reads the wall clock with [datetime.now()], renders elements through
    [st.*] calls and delegates to functions of other modules
    ([connect_to_milvus], [RnDChatbot], [load_custom_css],
    [create_chatbot_interface]).  Every function of the file becomes a
    computation in a state-and-exception monad over a [world] that holds the
    session dictionary, the number of clock reads, the trace of rendered
    elements and external calls, and the slots of the three [st.cache_*]
    decorators. *)

From stdpp Require Import base option list gmap strings fin_maps.
From Stdlib Require Import ZArith Lia.

Local Open Scope Z_scope.
Local Set Warnings "-register-all".

(** ** Python values held in the session dictionary *)

(** The kinds of values this file stores or reads: [None], booleans, integers
    (unbounded), naive [datetime] stamps (microseconds on the time line),
    lists, and opaque objects known by identity (a chatbot instance, a chat
    entry).  Floats and user classes with overloaded operators are outside
    the model. *)
Inductive value : Type :=
  | VNone
  | VBool (b : bool)
  | VInt (n : Z)
  | VDatetime (t : Z)
  | VList (l : list value)
  | VObj (id : nat).

(** Instances of Python's [Exception].  [AttributeError k] is what reading
    [st.session_state.k] raises when [k] is undefined; [TypeError op] is what
    an operator raises on an operand it does not support; [KeyError k] is what
    [del st.session_state[k]] raises when [k] is undefined; [OtherError]
    stands for whatever another module raises. *)
Inductive exn : Type :=
  | AttributeError (attr : string)
  | TypeError (op : string)
  | KeyError (key : string)
  | OtherError (what : string).

(** How a call ends.  [Rerun] is Streamlit's script-control signal
    ([st.rerun()]): it derives from [BaseException] only, so an
    [except Exception] clause lets it through. *)
Inductive outcome (A : Type) : Type :=
  | Ret (a : A)
  | Raise (e : exn)
  | Rerun.
Arguments Ret {A} a.
Arguments Raise {A} e.
Arguments Rerun {A}.

(** What the script shows and whom it calls, in program order. *)
Inductive event : Type :=
  | EvPageConfig
  | EvMarkdown (html : string)
  | EvWarning (msg : string)
  | EvError (msg : string)
  | EvButton (label : string)
  | EvCall (name : string).

(** [EvCall] records a call into another module; the others are Streamlit
    elements, which a cached function replays on a cache hit. *)
Definition is_element (ev : event) : bool :=
  match ev with
  | EvCall _ => false
  | _ => true
  end.

Record world : Type := World {
  session : gmap string value;
  ticks : nat;
  trace : list event;
  conn_cache : option (bool * list event);
  chatbot_cache : option (value * list event);
  css_cache : option (string * list event)
}.

Definition set_session (f : gmap string value → gmap string value) (w : world) : world :=
  World (f (session w)) (ticks w) (trace w) (conn_cache w) (chatbot_cache w) (css_cache w).

Definition set_ticks (n : nat) (w : world) : world :=
  World (session w) n (trace w) (conn_cache w) (chatbot_cache w) (css_cache w).

Definition set_trace (f : list event → list event) (w : world) : world :=
  World (session w) (ticks w) (f (trace w)) (conn_cache w) (chatbot_cache w) (css_cache w).

Definition set_conn_cache (c : option (bool * list event)) (w : world) : world :=
  World (session w) (ticks w) (trace w) c (chatbot_cache w) (css_cache w).

Definition set_chatbot_cache (c : option (value * list event)) (w : world) : world :=
  World (session w) (ticks w) (trace w) (conn_cache w) c (css_cache w).

Definition set_css_cache (c : option (string * list event)) (w : world) : world :=
  World (session w) (ticks w) (trace w) (conn_cache w) (chatbot_cache w) c.

(** ** The monad of script computations *)

Definition M (A : Type) : Type := world → outcome A * world.

Definition ret {A} (a : A) : M A := fun w => (Ret a, w).

Definition bind {A B} (c : M A) (k : A → M B) : M B :=
  fun w =>
    match c w with
    | (Ret a, w') => k a w'
    | (Raise e, w') => (Raise e, w')
    | (Rerun, w') => (Rerun, w')
    end.

Definition raise {A} (e : exn) : M A := fun w => (Raise e, w).

(** [try: c except Exception as e: h e].  Mutations made before the exception
    stay; [Rerun] is not an [Exception] and passes. *)
Definition try_except {A} (c : M A) (h : exn → M A) : M A :=
  fun w =>
    match c w with
    | (Raise e, w') => h e w'
    | r => r
    end.

Declare Scope py_scope.
Delimit Scope py_scope with py.
Notation "x <- c ;; k" := (bind c (fun x => k))
  (at level 100, c at next level, right associativity) : py_scope.
Notation "c ;;; k" := (bind c (fun _ => k))
  (at level 100, right associativity) : py_scope.
Local Open Scope py_scope.

(** [when b c]: an [if] without [else]. *)
Definition when (b : bool) (c : M unit) : M unit := if b then c else ret tt.

(** ** Python operators used by the file *)

(** Truth value of an object, as [not] and [and] test it. *)
Definition truthy (v : value) : bool :=
  match v with
  | VNone => false
  | VBool b => b
  | VInt n => negb (n =? 0)
  | VDatetime _ => true
  | VList l => negb (bool_decide (l = []))
  | VObj _ => true
  end.

(** [v == 1]: never raises; [True == 1] holds since [bool] is an [int]. *)
Definition py_eq_one (v : value) : bool :=
  match v with
  | VInt n => n =? 1
  | VBool b => b
  | _ => false
  end.

(** [v + 1] *)
Definition py_add_one (v : value) : M value :=
  match v with
  | VInt n => ret (VInt (n + 1))
  | VBool b => ret (VInt ((if b then 1 else 0) + 1))
  | _ => raise (TypeError "+")
  end.

(** [len(v)] *)
Definition py_len (v : value) : M nat :=
  match v with
  | VList l => ret (length l)
  | _ => raise (TypeError "len")
  end.

(** [l[-n:]]: the last [n] items, the whole list when it has fewer. *)
Definition slice_last (n : nat) (l : list value) : list value :=
  drop (length l - n) l.

(** [v[-n:]] *)
Definition py_slice_last (n : nat) (v : value) : M value :=
  match v with
  | VList l => ret (VList (slice_last n l))
  | _ => raise (TypeError "slice")
  end.

(** [v < bound] for a [datetime] bound *)
Definition py_lt_datetime (v : value) (bound : Z) : M bool :=
  match v with
  | VDatetime t => ret (t <? bound)
  | _ => raise (TypeError "<")
  end.

(** [timedelta(hours=2)], in microseconds *)
Definition two_hours : Z := 2 * 3600 * 1000000.

(** ** Session state and Streamlit primitives *)

(** [st.session_state.k] *)
Definition get_attr (k : string) : M value :=
  fun w =>
    match session w !! k with
    | Some v => (Ret v, w)
    | None => (Raise (AttributeError k), w)
    end.

(** [st.session_state.k = v] *)
Definition set_attr (k : string) (v : value) : M unit :=
  fun w => (Ret tt, set_session (insert k v) w).

(** ['k' in st.session_state] *)
Definition has_attr (k : string) : M bool :=
  fun w => (Ret (bool_decide (is_Some (session w !! k))), w).

(** [list(st.session_state.keys())] *)
Definition session_keys : M (list string) :=
  fun w => (Ret (fst <$> map_to_list (session w)), w).

(** [del st.session_state[k]] *)
Definition del_item (k : string) : M unit :=
  fun w =>
    match session w !! k with
    | Some _ => (Ret tt, set_session (delete k) w)
    | None => (Raise (KeyError k), w)
    end.

Definition emit (ev : event) : M unit :=
  fun w => (Ret tt, set_trace (fun t => t ++ [ev]) w).

Definition st_set_page_config : M unit := emit EvPageConfig.
Definition st_markdown (html : string) : M unit := emit (EvMarkdown html).
Definition st_warning (msg : string) : M unit := emit (EvWarning msg).
Definition st_error (msg : string) : M unit := emit (EvError msg).

(** [st.rerun()] stops the script and asks for a new run. *)
Definition st_rerun {A} : M A := fun w => (Rerun, w).

(** A function of another module: it may read and mutate the session
    dictionary, return, raise or stop the script. *)
Definition ext (A : Type) : Type := gmap string value → outcome A * gmap string value.

Definition call_ext {A} (name : string) (f : ext A) : M A :=
  fun w =>
    let '(o, s') := f (session w) in
    (o, set_trace (fun t => t ++ [EvCall name]) (set_session (fun _ => s') w)).

(** A function under [@st.cache_data] / [@st.cache_resource] with no
    arguments: one slot.  On a hit the stored value comes back and the
    elements the body rendered are replayed; on a miss the body runs and a
    normal return is stored with the elements it rendered.  An entry that
    outlives its [ttl] is dropped by the framework between calls, which
    leaves the slot empty. *)
Definition st_cache {A} (slot : world → option (A * list event))
    (store : option (A * list event) → world → world) (body : M A) : M A :=
  fun w =>
    match slot w with
    | Some (v, els) => (Ret v, set_trace (fun t => t ++ els) w)
    | None =>
        match body w with
        | (Ret v, w') =>
            (Ret v, store (Some (v, filter is_element (drop (length (trace w)) (trace w')))) w')
        | r => r
        end
    end.

(** [for x in l: f x] *)
Fixpoint for_each {A} (l : list A) (f : A → M unit) : M unit :=
  match l with
  | [] => ret tt
  | x :: l' => f x ;;; for_each l' f
  end.

(** ** Text constants of the file *)

Definition nl : string := String (Ascii.ascii_of_nat 10) EmptyString.
Definition dq : string := String (Ascii.ascii_of_nat 34) EmptyString.

Definition indent4 : string := "    ".
Definition indent8 : string := "        ".

Definition header_html : string :=
  nl +:+
  indent4 +:+ "<div class=" +:+ dq +:+ "main-header" +:+ dq +:+ ">" +:+ nl +:+
  indent8 +:+ "<h1>🚀 Milvus Product Analytics Dashboard</h1>" +:+ nl +:+
  indent8 +:+ "<p>🤖 RnD Assistant - Chatbot phân tích dữ liệu từ Milvus Vector Database</p>" +:+ nl +:+
  indent4 +:+ "</div>" +:+ nl +:+
  indent4.

Definition import_warning : string :=
  "⚠️ Không thể import chatbot. Chức năng chatbot sẽ bị vô hiệu hóa.".

Definition chatbot_error_prefix : string := "❌ Lỗi khởi tạo chatbot: ".

Definition reset_label : string := "🔄 Reset ứng dụng".

(** The three parts of the f-string of [handle_app_errors]: what precedes the
    exception text, and the remediation steps that follow it. *)
Definition error_head : string :=
  nl +:+
  indent8 +:+ "❌ **Đã xảy ra lỗi ứng dụng:**" +:+ nl +:+
  nl +:+
  indent8 +:+ "`".

Definition remediation_steps : string :=
  "**Khắc phục:**" +:+ nl +:+
  indent8 +:+ "1. Refresh trang (F5)" +:+ nl +:+
  indent8 +:+ "2. Xóa cache trình duyệt" +:+ nl +:+
  indent8 +:+ "3. Kiểm tra kết nối mạng".

Definition error_tail : string :=
  "`" +:+ nl +:+
  nl +:+
  indent8 +:+ remediation_steps +:+ nl +:+
  indent8.

(** [needle in hay] *)
Definition contains (needle hay : string) : Prop :=
  ∃ pre post, hay = pre +:+ needle +:+ post.

(** [max_history = 50] *)
Definition max_history : nat := 50.

(** ** Sample collaborators and sessions *)

(** A collaborator that returns [a], and one that raises [e], leaving the
    session as it is. *)
Definition ext_ret {A} (a : A) : ext A := fun s => (Ret a, s).
Definition ext_raise {A} (e : exn) : ext A := fun s => (Raise e, s).

(** A clock that starts at [base] and advances by one microsecond a read. *)
Definition clock_from (base : Z) (n : nat) : Z := base + Z.of_nat n.

(** A rendering of exceptions that shows their argument. *)
Definition exn_text (e : exn) : string :=
  match e with
  | AttributeError k => k
  | TypeError op => op
  | KeyError k => k
  | OtherError what => what
  end.

Definition world_of (s : gmap string value) : world :=
  World s 0 [] None None None.

(** The session of a first page load. *)
Definition empty_world : world := world_of ∅.

(** A session last touched at time 0, with one chat entry, three page loads
    and a recorded connection check. *)
Definition stale_session : gmap string value :=
  list_to_map
    [("chat_history", VList [VObj 1]); ("last_activity", VDatetime 0);
     ("page_load_count", VInt 3); ("chatbot_loading", VBool true);
     ("connection_status", VBool true);
     ("last_connection_check", VDatetime 0)].

(** A session in which [chatbot_initialized] is defined without the other
    fields of its block. *)
Definition partial_session : gmap string value :=
  {[ "chatbot_initialized" := VBool false ]}.

(** A history of 52 entries, numbered from the oldest. *)
Definition long_history : list value := VObj <$> seq 0 52.

(** ** The functions of web.py *)

Section WebPy.

Local Set Default Proof Using "Type".
Local Set Proof Using Clear Unused.

(** Whether [from chatbot import RnDChatbot] succeeded at load time. *)
Variable CHATBOT_AVAILABLE : bool.

(** The collaborators from other modules. *)
Variable connect_to_milvus : ext bool.
Variable RnDChatbot : ext nat.
Variable load_custom_css : ext string.
Variable create_chatbot_interface : ext unit.

(** [clock i] is what the [i]-th call of [datetime.now()] returns. *)
Variable clock : nat → Z.

(** Whether the user pressed the button with the given label. *)
Variable button_clicked : string → bool.

(** [str(e)], as the raising library words it. *)
Variable str_exn : exn → string.

Definition datetime_now : M Z :=
  fun w => (Ret (clock (ticks w)), set_ticks (S (ticks w)) w).

Definition st_button (label : string) : M bool :=
  fun w => (Ret (button_clicked label), set_trace (fun t => t ++ [EvButton label]) w).

(** Body of [get_connection_status] (lines 29-34). *)
Definition get_connection_status_body : M bool :=
  try_except (call_ext "connect_to_milvus" connect_to_milvus)
             (fun _ => ret false).

(** [@st.cache_data(ttl=1800)] *)
Definition get_connection_status : M bool :=
  st_cache conn_cache set_conn_cache get_connection_status_body.

(** Body of [initialize_cached_chatbot] (lines 39-47). *)
Definition initialize_cached_chatbot_body : M value :=
  if CHATBOT_AVAILABLE then
    try_except (o <- call_ext "RnDChatbot" RnDChatbot ;; ret (VObj o))
               (fun e => st_error (chatbot_error_prefix +:+ str_exn e) ;;; ret VNone)
  else ret VNone.

(** [@st.cache_resource] *)
Definition initialize_cached_chatbot : M value :=
  st_cache chatbot_cache set_chatbot_cache initialize_cached_chatbot_body.

(** [@st.cache_data] over the import and call of [load_custom_css]. *)
Definition load_cached_css : M string :=
  st_cache css_cache set_css_cache (call_ext "load_custom_css" load_custom_css).

(** [@st.cache_data] over a constant: the cache is not observable. *)
Definition get_header_content : M string := ret header_html.

Definition initialize_session_state : M unit :=
  b <- has_attr "app_initialized" ;;
  when (negb b)
    (set_attr "app_initialized" (VBool true) ;;;
     set_attr "last_connection_check" VNone ;;;
     set_attr "connection_status" VNone) ;;;
  b <- has_attr "chatbot_initialized" ;;
  when (negb b)
    (set_attr "chatbot_initialized" (VBool false) ;;;
     set_attr "chatbot" VNone ;;;
     set_attr "chat_history" (VList []) ;;;
     set_attr "chatbot_loading" (VBool false)) ;;;
  b <- has_attr "page_load_count" ;;
  when (negb b)
    (set_attr "page_load_count" (VInt 0) ;;;
     t <- datetime_now ;;
     set_attr "last_activity" (VDatetime t)) ;;;
  c <- get_attr "page_load_count" ;;
  c' <- py_add_one c ;;
  set_attr "page_load_count" c' ;;;
  t <- datetime_now ;;
  set_attr "last_activity" (VDatetime t).

Definition setup_chatbot_optimized : M value :=
  if negb CHATBOT_AVAILABLE then
    c <- get_attr "page_load_count" ;;
    when (py_eq_one c) (st_warning import_warning) ;;;
    ret (VBool false)
  else
    i <- get_attr "chatbot_initialized" ;;
    (if negb (truthy i) then
       l <- get_attr "chatbot_loading" ;;
       when (negb (truthy l)) (set_attr "chatbot_loading" (VBool true))
     else ret tt) ;;;
    get_attr "chatbot_initialized".

Definition cleanup_old_data : M unit :=
  h <- get_attr "chat_history" ;;
  n <- py_len h ;;
  when (bool_decide (max_history < n)%nat)
    (h <- get_attr "chat_history" ;;
     h' <- py_slice_last max_history h ;;
     set_attr "chat_history" h') ;;;
  a <- get_attr "last_activity" ;;
  now <- datetime_now ;;
  stale <- py_lt_datetime a (now - two_hours) ;;
  when stale
    (set_attr "last_connection_check" VNone ;;;
     set_attr "connection_status" VNone).

Definition main : M unit :=
  st_set_page_config ;;;
  initialize_session_state ;;;
  _ <- load_cached_css ;;
  html <- get_header_content ;;
  st_markdown html ;;;
  _ <- setup_chatbot_optimized ;;
  call_ext "create_chatbot_interface" create_chatbot_interface ;;;
  cleanup_old_data.

(** The f-string shown by [handle_app_errors]. *)
Definition error_message (e : exn) : string :=
  error_head +:+ str_exn e +:+ error_tail.

(** The reset branch (lines 190-193). *)
Definition reset_app : M unit :=
  keys <- session_keys ;;
  for_each keys del_item ;;;
  st_rerun.

Definition handle_app_errors : M unit :=
  try_except main
    (fun e =>
       st_error (error_message e) ;;;
       clicked <- st_button reset_label ;;
       when clicked reset_app).

(** ** The blocks of initialize_session_state *)

(** Lines 75-78 and lines 80-84 as functions on the dictionary. *)
Definition init_app_block (s : gmap string value) : gmap string value :=
  if bool_decide (is_Some (s !! "app_initialized")) then s
  else <["connection_status" := VNone]>
         (<["last_connection_check" := VNone]>
            (<["app_initialized" := VBool true]> s)).

Definition init_chatbot_block (s : gmap string value) : gmap string value :=
  if bool_decide (is_Some (s !! "chatbot_initialized")) then s
  else <["chatbot_loading" := VBool false]>
         (<["chat_history" := VList []]>
            (<["chatbot" := VNone]>
               (<["chatbot_initialized" := VBool false]> s))).

(** Lines 87-92 on a dictionary [s] read at clock position [n]: the new
    dictionary and clock position, or the [TypeError] of [+= 1]. *)
Definition init_counter_block (s : gmap string value) (n : nat)
  : outcome unit * gmap string value * nat :=
  match s !! "page_load_count" with
  | None =>
      (Ret tt,
       <["last_activity" := VDatetime (clock (S n))]>
         (<["page_load_count" := VInt 1]>
            (<["last_activity" := VDatetime (clock n)]>
               (<["page_load_count" := VInt 0]> s))),
       S (S n))
  | Some (VInt c) =>
      (Ret tt,
       <["last_activity" := VDatetime (clock n)]>
         (<["page_load_count" := VInt (c + 1)]> s),
       S n)
  | Some (VBool b) =>
      (Ret tt,
       <["last_activity" := VDatetime (clock n)]>
         (<["page_load_count" := VInt ((if b then 1 else 0) + 1)]> s),
       S n)
  | Some _ => (Raise (TypeError "+"), s, n)
  end.

(** ** Session fields and sequences of calls *)

(** The nine fields [initialize_session_state] creates. *)
Definition session_fields : list string :=
  ["app_initialized"; "last_connection_check"; "connection_status";
   "chatbot_initialized"; "chatbot"; "chat_history"; "chatbot_loading";
   "page_load_count"; "last_activity"].

Definition all_fields_defined (s : gmap string value) : Prop :=
  Forall (fun k => is_Some (s !! k)) session_fields.

(** The guards of [initialize_session_state] test one key per block; the
    block is whole when that key comes with the other fields of the block. *)
Definition groups_complete (s : gmap string value) : Prop :=
  (is_Some (s !! "app_initialized") →
     is_Some (s !! "last_connection_check") ∧ is_Some (s !! "connection_status")) ∧
  (is_Some (s !! "chatbot_initialized") →
     is_Some (s !! "chatbot") ∧ is_Some (s !! "chat_history") ∧
     is_Some (s !! "chatbot_loading")).

(** The session-state functions of the file, as steps of a run. *)
Inductive op : Type := OpInit | OpSetup | OpCleanup.

Definition run_op (o : op) : M unit :=
  match o with
  | OpInit => initialize_session_state
  | OpSetup => _ <- setup_chatbot_optimized ;; ret tt
  | OpCleanup => cleanup_old_data
  end.

(** The worlds after each step of a sequence; a step that raises leaves the
    world it reached. *)
Fixpoint run_ops (ops : list op) (w : world) : list world :=
  match ops with
  | [] => []
  | o :: ops' => let w' := snd (run_op o w) in w' :: run_ops ops' w'
  end.

(** [last_activity] did not go back from [s] to [s']. *)
Definition last_activity_le (s s' : gmap string value) : Prop :=
  ∀ t, s !! "last_activity" = Some (VDatetime t) →
       ∃ t', s' !! "last_activity" = Some (VDatetime t') ∧ t ≤ t'.

Fixpoint stamps_ascend (w : world) (ws : list world) : Prop :=
  match ws with
  | [] => True
  | w' :: ws' => last_activity_le (session w) (session w') ∧ stamps_ascend w' ws'
  end.

(** The stored stamp is not ahead of the next clock reading. *)
Definition stamp_not_ahead (w : world) : Prop :=
  ∀ t, session w !! "last_activity" = Some (VDatetime t) → t ≤ clock (ticks w).

(** A step that writes [last_activity] writes a clock reading of that step. *)
Definition stamp_kept_or_clock (w w' : world) : Prop :=
  (ticks w ≤ ticks w')%nat ∧
  (session w' !! "last_activity" = session w !! "last_activity" ∨
   ∃ i, (ticks w ≤ i < ticks w')%nat ∧
        session w' !! "last_activity" = Some (VDatetime (clock i))).

(** From [w] to [w'] the chatbot was neither built nor installed: no call
    of the constructor was added to the trace, and [chatbot_initialized],
    [chatbot] and the slot of [initialize_cached_chatbot] are as they were. *)
Definition chatbot_untouched (w w' : world) : Prop :=
  session w' !! "chatbot_initialized" = session w !! "chatbot_initialized" ∧
  session w' !! "chatbot" = session w !! "chatbot" ∧
  chatbot_cache w' = chatbot_cache w ∧
  (EvCall "RnDChatbot" ∈ trace w' → EvCall "RnDChatbot" ∈ trace w).

(** ** Stronger readings, refuted below *)

(** What each field holds right after its creation on the first page load
    ([last_activity] is a clock reading and has no fixed first value). *)
Definition first_load_session : gmap string value :=
  list_to_map
    [("app_initialized", VBool true); ("last_connection_check", VNone);
     ("connection_status", VNone); ("chatbot_initialized", VBool false);
     ("chatbot", VNone); ("chat_history", VList []);
     ("chatbot_loading", VBool false); ("page_load_count", VInt 0)].

(** A field is cleared when it is undefined or back at its first value. *)
Definition field_cleared (s : gmap string value) (k : string) : Prop :=
  s !! k = None ∨ s !! k = first_load_session !! k.

(** Two hours of inactivity clear every session field. *)
Definition stale_cleanup_clears_fields : Prop :=
  ∀ w t, session w !! "last_activity" = Some (VDatetime t) →
         t < clock (ticks w) - two_hours →
         ∀ k, k ∈ session_fields →
              field_cleared (session (snd (cleanup_old_data w))) k.

(** Every session leaves [initialize_session_state] with all nine fields. *)
Definition init_defines_all_fields : Prop :=
  ∀ w w', initialize_session_state w = (Ret tt, w') →
          all_fields_defined (session w').

(** The functions of the file that write the session, the reset branch of
    [handle_app_errors] included. *)
Inductive call : Type := CallOp (o : op) | CallReset.

Definition run_call (c : call) : M unit :=
  match c with
  | CallOp o => run_op o
  | CallReset => reset_app
  end.

Definition run_calls (cs : list call) (w : world) : world :=
  foldl (fun w c => snd (run_call c w)) w cs.

(** Once [True], [chatbot_loading] is never [False] again. *)
Definition loading_never_reset : Prop :=
  ∀ cs w, session w !! "chatbot_loading" = Some (VBool true) →
          session (run_calls cs w) !! "chatbot_loading" ≠ Some (VBool false).

(** [setup_chatbot_optimized] returns [chatbot_initialized] on every session
    that defines it. *)
Definition setup_returns_previous : Prop :=
  ∀ w v, session w !! "chatbot_initialized" = Some v →
         fst (setup_chatbot_optimized w) = Ret v.

(** ** Page loads and collaborators that keep a field *)

(** The session after [n] more calls of [initialize_session_state]. *)
Definition page_loads (n : nat) (w : world) : world :=
  Nat.iter n (fun w => snd (initialize_session_state w)) w.

(** A collaborator that never writes the field [k]. *)
Definition ext_keeps {A} (k : string) (f : ext A) : Prop :=
  ∀ s, (f s).2 !! k = s !! k.

(** ** get_performance_metrics *)

(** [st.session_state.get(k, d)]: never raises. *)
Definition get_item_default (k : string) (d : value) : M value :=
  fun w => (Ret (default d (session w !! k)), w).

(** The decimal digit [n], for [0 <= n <= 9]. *)
Definition digit (n : Z) : Ascii.ascii := Ascii.ascii_of_nat (48 + Z.to_nat n).

(** [n] on two digits, followed by [rest]. *)
Definition two_digits_then (n : Z) (rest : string) : string :=
  String (digit (n / 10)) (String (digit (n mod 10)) rest).

Definition colon : Ascii.ascii := Ascii.ascii_of_nat 58.

(** [d.strftime("%H:%M:%S")] for a stamp of [t] microseconds, counted from
    a midnight as [datetime] counts from 0001-01-01 00:00. *)
Definition strftime_hms (t : Z) : string :=
  let secs := t / 1000000 in
  two_digits_then (secs / 3600 mod 24)
    (String colon (two_digits_then (secs / 60 mod 60)
       (String colon (two_digits_then (secs mod 60) EmptyString)))).

(** [v.strftime("%H:%M:%S")]: an object that is no datetime has no such
    method. *)
Definition py_strftime_hms (v : value) : M string :=
  match v with
  | VDatetime t => ret (strftime_hms t)
  | _ => raise (AttributeError "strftime")
  end.

(** The dictionary returned by [get_performance_metrics], by key. *)
Record metrics : Type := Metrics {
  m_connection_checks : value;
  m_page_loads : value;
  m_last_activity : string
}.

(** Body of [get_performance_metrics] (lines 113-119); the values of the
    dictionary display are evaluated in order. *)
Definition get_performance_metrics_body : M metrics :=
  c <- get_item_default "connection_checks" (VInt 0) ;;
  p <- get_attr "page_load_count" ;;
  a <- get_attr "last_activity" ;;
  text <- py_strftime_hms a ;;
  ret (Metrics c p text).

(** [@st.cache_data(ttl=60)], with the slot of this function passed in and
    handed back: a hit returns the stored dictionary, a miss runs the body
    and stores a normal return. *)
Definition get_performance_metrics (slot : option (metrics * list event))
    (w : world) : outcome metrics * world * option (metrics * list event) :=
  match slot with
  | Some (m, els) => (Ret m, set_trace (fun t => t ++ els) w, slot)
  | None =>
      match get_performance_metrics_body w with
      | (Ret m, w') =>
          (Ret m, w', Some (m, filter is_element (drop (length (trace w)) (trace w'))))
      | (o, w') => (o, w', None)
      end
  end.

(** ** Running the monad *)

Lemma session_set_session f w : session (set_session f w) = f (session w).
Proof. reflexivity. Qed.

(** Unfold one layer of the script and simplify the world projections. *)
Ltac run :=
  unfold bind, when, try_except, get_attr, set_attr, has_attr,
    st_warning, st_error, st_markdown, st_set_page_config, st_rerun,
    emit, datetime_now, call_ext, py_len, py_slice_last,
    py_lt_datetime, py_add_one, ret, raise in *;
  cbn [session ticks trace conn_cache chatbot_cache css_cache set_session
       set_ticks set_trace set_conn_cache set_chatbot_cache set_css_cache
       fst snd] in *.

(** ** get_connection_status *)

(** C4. [get_connection_status] never lets an exception out: when
    [connect_to_milvus] raises it returns [False], when it returns a
    boolean that boolean is returned, and the decorated function returns
    what the body returns on a cache miss and a stored boolean on a hit. *)
Theorem get_connection_status_boolean (w : world) :
  (∀ e s', connect_to_milvus (session w) = (Raise e, s') →
           fst (get_connection_status_body w) = Ret false) ∧
  (∀ b s', connect_to_milvus (session w) = (Ret b, s') →
           fst (get_connection_status_body w) = Ret b) ∧
  (∀ e, fst (get_connection_status_body w) ≠ Raise e) ∧
  (∀ e, fst (get_connection_status w) ≠ Raise e) ∧
  (conn_cache w = None →
     fst (get_connection_status w) = fst (get_connection_status_body w)) ∧
  (∀ b els, conn_cache w = Some (b, els) →
     fst (get_connection_status w) = Ret b).
Proof.
  assert (Hbody : ∀ e, fst (get_connection_status_body w) ≠ Raise e).
  { intros e. unfold get_connection_status_body. run.
    destruct (connect_to_milvus (session w)) as [[b|e'|] s']; discriminate. }
  repeat split.
  - intros e s' H. unfold get_connection_status_body. run. now rewrite H.
  - intros b s' H. unfold get_connection_status_body. run. now rewrite H.
  - exact Hbody.
  - intros e. unfold get_connection_status, st_cache.
    destruct (conn_cache w) as [[b els]|]; [discriminate|].
    specialize (Hbody e).
    destruct (get_connection_status_body w) as [[b|e'|] w']; cbn in *;
      congruence.
  - intros H. unfold get_connection_status, st_cache. rewrite H.
    now destruct (get_connection_status_body w) as [[b|e'|] w'].
  - intros b els H. unfold get_connection_status, st_cache. now rewrite H.
Qed.

(** ** Chatbot construction *)

(** C6. Chatbot construction is guarded by [CHATBOT_AVAILABLE]: when the
    import failed, [initialize_cached_chatbot] returns [None] and leaves the
    world as it was (no constructor call), and [setup_chatbot_optimized]
    returns [False]; when the import succeeded and the constructor raises,
    the exception is caught, an error is shown and [None] is returned. *)
Theorem chatbot_construction_guarded (w : world) :
  (CHATBOT_AVAILABLE = false →
     initialize_cached_chatbot_body w = (Ret VNone, w) ∧
     (chatbot_cache w = None →
        fst (initialize_cached_chatbot w) = Ret VNone ∧
        trace (snd (initialize_cached_chatbot w)) = trace w ∧
        session (snd (initialize_cached_chatbot w)) = session w) ∧
     (∀ v, fst (setup_chatbot_optimized w) = Ret v → v = VBool false) ∧
     (is_Some (session w !! "page_load_count") →
        fst (setup_chatbot_optimized w) = Ret (VBool false))) ∧
  (CHATBOT_AVAILABLE = true →
     ∀ e s', RnDChatbot (session w) = (Raise e, s') →
       fst (initialize_cached_chatbot_body w) = Ret VNone ∧
       trace (snd (initialize_cached_chatbot_body w)) =
         trace w ++ [EvCall "RnDChatbot"; EvError (chatbot_error_prefix +:+ str_exn e)] ∧
       (chatbot_cache w = None → fst (initialize_cached_chatbot w) = Ret VNone)) ∧
  (∀ e, fst (initialize_cached_chatbot_body w) ≠ Raise e).
Proof.
  split; [|split].
  - intros HA. unfold initialize_cached_chatbot, st_cache,
      initialize_cached_chatbot_body, setup_chatbot_optimized.
    rewrite HA. cbn [negb]. run. repeat split.
    + now rewrite H.
    + now rewrite H.
    + now rewrite H.
    + intros v. destruct (session w !! "page_load_count") as [c|]; [|discriminate].
      destruct (py_eq_one c); cbn; congruence.
    + intros [c ->]. now destruct (py_eq_one c).
  - intros HA e s' HR. unfold initialize_cached_chatbot, st_cache,
      initialize_cached_chatbot_body.
    rewrite HA. run. rewrite HR. cbn. repeat split.
    + now rewrite <- app_assoc.
    + now intros ->.
  - intros e. unfold initialize_cached_chatbot_body.
    destruct CHATBOT_AVAILABLE; [|discriminate]. run.
    destruct (RnDChatbot (session w)) as [[o|e'|] s']; discriminate.
Qed.

(** ** cleanup_old_data *)

(** What [cleanup_old_data] does once the two fields it reads hold a list and
    a time stamp: it returns, the clock has been read once, and the session
    is the old one with the history cut and, when stale, the two connection
    fields set to [None]. *)
Lemma cleanup_old_data_run (w : world) (l : list value) (t : Z) :
  session w !! "chat_history" = Some (VList l) →
  session w !! "last_activity" = Some (VDatetime t) →
  let s1 := if bool_decide (max_history < length l)%nat
            then <["chat_history" := VList (slice_last max_history l)]> (session w)
            else session w in
  let s2 := if t <? clock (ticks w) - two_hours
            then <["connection_status" := VNone]> (<["last_connection_check" := VNone]> s1)
            else s1 in
  cleanup_old_data w =
    (Ret tt, set_ticks (S (ticks w)) (set_session (fun _ => s2) w)).
Proof.
  intros Hh Ha. unfold cleanup_old_data. run. rewrite Hh. cbn.
  destruct (bool_decide (max_history < length l)%nat); run.
  - rewrite Hh. run. rewrite lookup_insert_ne by done. rewrite Ha. run.
    destruct (t <? clock (ticks w) - two_hours); reflexivity.
  - rewrite Ha. run. destruct (t <? clock (ticks w) - two_hours); reflexivity.
Qed.

(** Whatever the session holds, [cleanup_old_data] touches no key besides
    the three it assigns. *)
Lemma cleanup_old_data_other_keys (w : world) (k : string) :
  k ≠ "chat_history" → k ≠ "last_connection_check" → k ≠ "connection_status" →
  session (snd (cleanup_old_data w)) !! k = session w !! k.
Proof.
  intros H1 H2 H3. unfold cleanup_old_data. run.
  repeat (case_match; run; simplify_eq); run;
    rewrite ?lookup_insert_ne by done; reflexivity.
Qed.

Lemma slice_last_length (n : nat) (l : list value) :
  length (slice_last n l) = (length l `min` n)%nat.
Proof. unfold slice_last. rewrite length_drop. lia. Qed.

Lemma slice_last_suffix (n : nat) (l : list value) :
  l = take (length l - n) l ++ slice_last n l.
Proof. unfold slice_last. now rewrite take_drop. Qed.

Lemma slice_last_short (n : nat) (l : list value) :
  (length l ≤ n)%nat → slice_last n l = l.
Proof.
  intros H. unfold slice_last.
  replace (length l - n)%nat with 0%nat by lia. reflexivity.
Qed.

(** The history after [cleanup_old_data], whatever the session holds. *)
Lemma cleanup_old_data_history (w : world) :
  session (snd (cleanup_old_data w)) !! "chat_history" =
    match session w !! "chat_history" with
    | Some (VList l) => Some (VList (slice_last max_history l))
    | o => o
    end.
Proof.
  unfold cleanup_old_data. run.
  destruct (session w !! "chat_history") as [h|] eqn:Hh; run; [|done].
  destruct h as [| | | |l|]; run; try done.
  destruct (bool_decide (max_history < length l)%nat) eqn:Hlen; run.
  - rewrite Hh. run.
    repeat (case_match; run; simplify_eq); run;
      rewrite ?lookup_insert_ne by done; now rewrite lookup_insert_eq.
  - apply bool_decide_eq_false in Hlen.
    rewrite slice_last_short by lia.
    repeat (case_match; run; simplify_eq); run;
      rewrite ?lookup_insert_ne by done; done.
Qed.

(** C1. After [cleanup_old_data] the chat history has at most 50 entries;
    a history of more than 50 entries is cut to exactly its last 50, in
    their order, the oldest ones being dropped; a shorter one is kept. *)
Theorem cleanup_caps_history (w : world) :
  (∀ l', session (snd (cleanup_old_data w)) !! "chat_history" = Some (VList l') →
         (length l' ≤ 50)%nat) ∧
  (∀ l, session w !! "chat_history" = Some (VList l) →
        ∃ l', session (snd (cleanup_old_data w)) !! "chat_history" = Some (VList l') ∧
              (length l' ≤ 50)%nat ∧
              ((50 < length l)%nat →
                 length l' = 50%nat ∧ ∃ evicted, l = evicted ++ l') ∧
              ((length l ≤ 50)%nat → l' = l)) ∧
  (∀ l t, session w !! "chat_history" = Some (VList l) →
          session w !! "last_activity" = Some (VDatetime t) →
          fst (cleanup_old_data w) = Ret tt).
Proof.
  split; [|split].
  - intros l'. rewrite cleanup_old_data_history.
    destruct (session w !! "chat_history") as [[| | | |l|]|]; try discriminate.
    intros [= <-]. rewrite slice_last_length. unfold max_history. lia.
  - intros l Hl. exists (slice_last max_history l).
    rewrite cleanup_old_data_history, Hl. split; [done|].
    rewrite slice_last_length. unfold max_history. split; [lia|]. split.
    + intros Hlen. split; [lia|].
      exists (take (length l - 50) l). apply slice_last_suffix.
    + apply slice_last_short.
  - intros l t Hl Ht. now rewrite (cleanup_old_data_run w l t Hl Ht).
Qed.

(** C9. [cleanup_old_data] writes no session field besides [chat_history],
    [last_connection_check] and [connection_status], renders nothing and
    leaves the caches alone; with at most 50 entries and an activity stamp
    not older than two hours it changes nothing in the session. *)
Theorem cleanup_frame (w : world) :
  (∀ k, k ≠ "chat_history" → k ≠ "last_connection_check" →
        k ≠ "connection_status" →
        session (snd (cleanup_old_data w)) !! k = session w !! k) ∧
  (session (snd (cleanup_old_data w)) !! "chatbot" = session w !! "chatbot" ∧
   session (snd (cleanup_old_data w)) !! "chatbot_initialized" =
     session w !! "chatbot_initialized" ∧
   session (snd (cleanup_old_data w)) !! "chatbot_loading" =
     session w !! "chatbot_loading" ∧
   session (snd (cleanup_old_data w)) !! "page_load_count" =
     session w !! "page_load_count" ∧
   session (snd (cleanup_old_data w)) !! "last_activity" =
     session w !! "last_activity") ∧
  (∀ l t, session w !! "chat_history" = Some (VList l) →
          (length l ≤ 50)%nat →
          session w !! "last_activity" = Some (VDatetime t) →
          ¬ (t < clock (ticks w) - two_hours) →
          fst (cleanup_old_data w) = Ret tt ∧
          session (snd (cleanup_old_data w)) = session w ∧
          trace (snd (cleanup_old_data w)) = trace w).
Proof.
  split; [|split].
  - apply cleanup_old_data_other_keys.
  - repeat split; now apply cleanup_old_data_other_keys.
  - intros l t Hl Hlen Ht Hfresh.
    rewrite (cleanup_old_data_run w l t Hl Ht). cbn.
    rewrite bool_decide_eq_false_2 by (unfold max_history; lia).
    destruct (Z.ltb_spec t (clock (ticks w) - two_hours)); [lia|done].
Qed.

(** C2, as the code has it. When the activity stamp is more than two hours
    old (and the history is a list), [cleanup_old_data] returns having set
    [last_connection_check] and [connection_status] to [None]; the history
    is only cut to its last 50 entries and every other field is kept. *)
Theorem cleanup_stale_resets_connection (w : world) (l : list value) (t : Z) :
  session w !! "chat_history" = Some (VList l) →
  session w !! "last_activity" = Some (VDatetime t) →
  t < clock (ticks w) - two_hours →
  fst (cleanup_old_data w) = Ret tt ∧
  session (snd (cleanup_old_data w)) !! "last_connection_check" = Some VNone ∧
  session (snd (cleanup_old_data w)) !! "connection_status" = Some VNone ∧
  session (snd (cleanup_old_data w)) !! "chat_history" =
    Some (VList (slice_last max_history l)) ∧
  (∀ k, k ≠ "chat_history" → k ≠ "last_connection_check" →
        k ≠ "connection_status" →
        session (snd (cleanup_old_data w)) !! k = session w !! k).
Proof.
  intros Hl Ht Hstale. split; [|split; [|split; [|split]]].
  - now rewrite (cleanup_old_data_run w l t Hl Ht).
  - rewrite (cleanup_old_data_run w l t Hl Ht). cbn.
    destruct (Z.ltb_spec t (clock (ticks w) - two_hours)); [|lia].
    rewrite lookup_insert_ne by done. apply lookup_insert_eq.
  - rewrite (cleanup_old_data_run w l t Hl Ht). cbn.
    destruct (Z.ltb_spec t (clock (ticks w) - two_hours)); [|lia].
    apply lookup_insert_eq.
  - now rewrite cleanup_old_data_history, Hl.
  - apply cleanup_old_data_other_keys.
Qed.

(** ** handle_app_errors *)

Lemma append_assoc (a b c : string) : (a +:+ b) +:+ c = a +:+ b +:+ c.
Proof.
  induction a as [|x a IH]; [reflexivity|].
  change (String x ((a +:+ b) +:+ c) = String x (a +:+ b +:+ c)).
  now rewrite IH.
Qed.

Lemma set_session_id (w : world) : set_session (fun s => s) w = w.
Proof. now destruct w. Qed.

Lemma set_session_compose f g (w : world) :
  set_session g (set_session f w) = set_session (fun s => g (f s)) w.
Proof. reflexivity. Qed.

(** The loop [for key in keys: del st.session_state[key]] over distinct keys
    that are all defined deletes them one after the other and never raises. *)
Lemma for_each_del_item (l : list string) (w : world) :
  NoDup l →
  (∀ k, k ∈ l → is_Some (session w !! k)) →
  for_each l del_item w =
    (Ret tt, set_session (fun s => foldl (fun s k => delete k s) s l) w).
Proof.
  revert w. induction l as [|k l IH]; intros w Hnd Hin; cbn.
  - unfold ret. now rewrite set_session_id.
  - apply NoDup_cons in Hnd as [Hk Hnd].
    destruct (Hin k) as [v Hv]; [left|].
    unfold bind, del_item at 1. rewrite Hv. rewrite IH; [done|done|].
    intros k' Hk'. cbn. rewrite lookup_delete_ne by (intros ->; done).
    apply Hin. now right.
Qed.

Lemma lookup_foldl_delete (l : list string) (s : gmap string value) (k : string) :
  foldl (fun s k => delete k s) s l !! k =
    if decide (k ∈ l) then None else s !! k.
Proof.
  revert s. induction l as [|k' l IH]; intros s; cbn.
  - rewrite decide_False; [done|]. apply not_elem_of_nil.
  - rewrite IH. destruct (decide (k ∈ l)) as [Hl|Hl].
    + rewrite decide_True; [done|]. now right.
    + destruct (decide (k = k')) as [->|Hne].
      * rewrite lookup_delete_eq. rewrite decide_True; [done|]. left.
      * rewrite lookup_delete_ne by done. rewrite decide_False; [done|].
        intros [->|?]%elem_of_cons; done.
Qed.

(** The reset branch empties the session dictionary and asks for a rerun. *)
Lemma reset_app_run (w : world) :
  reset_app w = (Rerun, set_session (fun _ => ∅) w).
Proof.
  unfold reset_app, session_keys, bind at 1.
  unfold bind. rewrite for_each_del_item.
  - unfold st_rerun. f_equal. destruct w; unfold set_session; cbn. f_equal.
    apply map_eq. intros k. rewrite lookup_foldl_delete, lookup_empty.
    destruct (decide _) as [|Hk]; [done|].
    destruct (session0 !! k) as [v|] eqn:Hv; [|done].
    destruct Hk. apply list_elem_of_fmap. exists (k, v). split; [done|].
    now apply elem_of_map_to_list.
  - apply NoDup_fst_map_to_list.
  - intros k [[k' v] [-> Hkv]]%list_elem_of_fmap.
    apply elem_of_map_to_list in Hkv. cbn. eauto.
Qed.

(** What [handle_app_errors] does with the outcome of [main]. *)
Lemma handle_app_errors_run (w : world) :
  handle_app_errors w =
    match main w with
    | (Raise e, w1) =>
        let w2 := set_trace (fun t => (t ++ [EvError (error_message e)]) ++ [EvButton reset_label]) w1 in
        if button_clicked reset_label
        then (Rerun, set_session (fun _ => ∅) w2)
        else (Ret tt, w2)
    | r => r
    end.
Proof.
  unfold handle_app_errors, try_except.
  destruct (main w) as [[[]|e|] w1]; try done.
  unfold st_button. run. destruct (button_clicked reset_label); [|done].
  now rewrite reset_app_run.
Qed.

(** C3. When [main] has raised and the user presses the reset button,
    [handle_app_errors] deletes every key of the session dictionary and
    ends with the rerun signal. *)
Theorem reset_clears_session (w w1 : world) (e : exn) :
  main w = (Raise e, w1) →
  button_clicked reset_label = true →
  fst (handle_app_errors w) = Rerun ∧
  session (snd (handle_app_errors w)) = ∅ ∧
  (∀ k, session (snd (handle_app_errors w)) !! k = None) ∧
  snd (reset_app w1) = set_session (fun _ => ∅) w1.
Proof.
  intros Hmain Hclick.
  rewrite reset_app_run, handle_app_errors_run, Hmain, Hclick. cbn.
  split; [done|]. split; [done|]. split; [|done].
  intros k. apply lookup_empty.
Qed.

(** C5. [handle_app_errors] never lets an exception out; an exception [e]
    raised by [main] is answered by an [st.error] message made of the
    exception text and the remediation steps, followed by the reset
    button. *)
Theorem main_exceptions_rendered (w : world) :
  (∀ e, fst (handle_app_errors w) ≠ Raise e) ∧
  (∀ e w1, main w = (Raise e, w1) →
     fst (handle_app_errors w) =
       (if button_clicked reset_label then Rerun else Ret tt) ∧
     trace (snd (handle_app_errors w)) =
       trace w1 ++ [EvError (error_message e); EvButton reset_label] ∧
     contains (str_exn e) (error_message e) ∧
     contains remediation_steps (error_message e)).
Proof.
  split.
  - intros e. rewrite handle_app_errors_run.
    destruct (main w) as [[[]|e'|] w1]; try done.
    cbn. now destruct (button_clicked reset_label).
  - intros e w1 Hmain. rewrite handle_app_errors_run, Hmain. cbn.
    split; [|split; [|split]].
    + now destruct (button_clicked reset_label).
    + destruct (button_clicked reset_label); cbn; now rewrite <- app_assoc.
    + exists error_head, error_tail. reflexivity.
    + exists (error_head +:+ str_exn e +:+ "`" +:+ nl +:+ nl +:+ indent8), (nl +:+ indent8).
      unfold error_message, error_tail. now rewrite !append_assoc.
Qed.

(** ** initialize_session_state, step by step *)

Lemma bind_assoc {A B C} (c : M A) (f : A → M B) (g : B → M C) (w : world) :
  bind (bind c f) g w = bind c (fun x => bind (f x) g) w.
Proof. unfold bind. now destruct (c w) as [[a|e|] w']. Qed.

Lemma bind_has_attr {B} (k : string) (f : bool → M B) (w : world) :
  bind (has_attr k) f w = f (bool_decide (is_Some (session w !! k))) w.
Proof. reflexivity. Qed.

Lemma bind_set_attr {B} (k : string) (v : value) (f : unit → M B) (w : world) :
  bind (set_attr k v) f w = f tt (set_session (insert k v) w).
Proof. reflexivity. Qed.

Lemma bind_datetime_now {B} (f : Z → M B) (w : world) :
  bind datetime_now f w = f (clock (ticks w)) (set_ticks (S (ticks w)) w).
Proof. reflexivity. Qed.

Lemma bind_get_attr {B} (k : string) (f : value → M B) (w : world) :
  bind (get_attr k) f w =
    match session w !! k with
    | Some v => f v w
    | None => (Raise (AttributeError k), w)
    end.
Proof. unfold bind, get_attr. now destruct (session w !! k). Qed.

Lemma bind_when {B} (b : bool) (c : M unit) (f : unit → M B) (w : world) :
  bind (when b c) f w = if b then bind c f w else f tt w.
Proof. now destruct b. Qed.

Ltac step :=
  first [ rewrite bind_assoc | rewrite bind_set_attr | rewrite bind_has_attr
        | rewrite bind_datetime_now | rewrite bind_get_attr | rewrite bind_when ];
  cbv beta; cbn [session set_session set_ticks ticks negb].

Lemma initialize_session_state_run (w : world) :
  initialize_session_state w =
    let '(o, s, n) :=
      init_counter_block (init_chatbot_block (init_app_block (session w))) (ticks w) in
    (o, set_ticks n (set_session (fun _ => s) w)).
Proof.
  unfold initialize_session_state, init_counter_block, init_chatbot_block,
    init_app_block.
  destruct w as [s n tr c1 c2 c3]. cbn [session ticks].
  do 2 step.
  destruct (bool_decide (is_Some (s !! "app_initialized"))); cbn [negb];
    repeat step;
    rewrite ?(lookup_insert_ne _ _ "chatbot_initialized") by discriminate.
  all: destruct (bool_decide (is_Some (s !! "chatbot_initialized"))); cbn [negb];
    repeat step;
    rewrite ?(lookup_insert_ne _ _ "page_load_count") by discriminate.
  all: destruct (s !! "page_load_count") as [c|] eqn:Hc.
  all: rewrite ?bool_decide_eq_true_2 by eauto;
       rewrite ?bool_decide_eq_false_2 by (intros [? ?]; discriminate);
       cbn [negb]; repeat step.
  all: rewrite ?lookup_insert_eq;
       rewrite ?(lookup_insert_ne _ _ "page_load_count") by discriminate;
       rewrite ?lookup_insert_eq, ?Hc.
  all: try destruct c.
  all: unfold py_add_one, bind, ret, raise, set_attr, datetime_now; reflexivity.
Qed.

(** ** Effects of the three steps on the session *)

Lemma init_blocks_lookup (s : gmap string value) (k : string) :
  k ≠ "app_initialized" → k ≠ "last_connection_check" →
  k ≠ "connection_status" → k ≠ "chatbot_initialized" → k ≠ "chatbot" →
  k ≠ "chat_history" → k ≠ "chatbot_loading" →
  init_chatbot_block (init_app_block s) !! k = s !! k.
Proof.
  intros. unfold init_chatbot_block, init_app_block.
  repeat case_bool_decide; rewrite ?lookup_insert_ne by done; reflexivity.
Qed.

Lemma init_app_block_chatbot (s : gmap string value) (k : string) :
  k ≠ "app_initialized" → k ≠ "last_connection_check" →
  k ≠ "connection_status" →
  init_app_block s !! k = s !! k.
Proof.
  intros. unfold init_app_block.
  case_bool_decide; rewrite ?lookup_insert_ne by done; reflexivity.
Qed.

Lemma init_chatbot_block_kept (s : gmap string value) :
  is_Some (s !! "chatbot_initialized") → init_chatbot_block s = s.
Proof. intros H. unfold init_chatbot_block. now rewrite bool_decide_eq_true_2. Qed.

Lemma init_blocks_defined (s : gmap string value) :
  groups_complete s →
  Forall (fun k => is_Some (init_chatbot_block (init_app_block s) !! k))
    ["app_initialized"; "last_connection_check"; "connection_status";
     "chatbot_initialized"; "chatbot"; "chat_history"; "chatbot_loading"].
Proof.
  intros [Happ Hbot]. unfold init_chatbot_block, init_app_block.
  destruct (decide (is_Some (s !! "app_initialized"))) as [Ha|Ha];
    [rewrite (bool_decide_eq_true_2 _ Ha); destruct (Happ Ha)
    |rewrite (bool_decide_eq_false_2 _ Ha)];
    rewrite ?(lookup_insert_ne _ _ "chatbot_initialized") by discriminate;
    (destruct (decide (is_Some (s !! "chatbot_initialized"))) as [Hc|Hc];
     [rewrite (bool_decide_eq_true_2 _ Hc); destruct (Hbot Hc) as (? & ? & ?)
     |rewrite (bool_decide_eq_false_2 _ Hc)]);
    repeat constructor;
    rewrite ?lookup_insert_ne by discriminate; rewrite ?lookup_insert_eq;
    eauto.
Qed.


(** What [cleanup_old_data] leaves alone outside the session. *)
Lemma cleanup_old_data_world (w : world) :
  trace (snd (cleanup_old_data w)) = trace w ∧
  chatbot_cache (snd (cleanup_old_data w)) = chatbot_cache w ∧
  (ticks w ≤ ticks (snd (cleanup_old_data w)))%nat.
Proof.
  unfold cleanup_old_data. run.
  repeat (case_match; run; simplify_eq); run; repeat split;
    first [apply Nat.le_refl | apply Nat.le_succ_diag_r].
Qed.

Lemma cleanup_old_data_defined (w : world) (k : string) :
  is_Some (session w !! k) → is_Some (session (snd (cleanup_old_data w)) !! k).
Proof.
  intros Hk. unfold cleanup_old_data. run.
  repeat (case_match; run; simplify_eq); run;
    rewrite ?lookup_insert_is_Some'; tauto.
Qed.

Lemma cleanup_old_data_no_attribute_error (w : world) (k : string) :
  is_Some (session w !! "chat_history") →
  is_Some (session w !! "last_activity") →
  fst (cleanup_old_data w) ≠ Raise (AttributeError k).
Proof.
  intros [h Hh] [a Ha]. unfold cleanup_old_data. run. rewrite Hh. run.
  destruct h as [| | | |l|]; run; try discriminate.
  destruct (bool_decide (max_history < length l)%nat); run;
    rewrite ?Hh; run; rewrite ?lookup_insert_ne by discriminate; rewrite Ha;
    destruct a; run; try discriminate;
    match goal with |- context [?x <? ?y] => destruct (x <? y) end;
    discriminate.
Qed.

(** What [setup_chatbot_optimized] does to the world: at most the warning is
    shown and at most [chatbot_loading] is set to [True]. *)
Lemma setup_chatbot_optimized_effect (w : world) :
  ticks (snd (setup_chatbot_optimized w)) = ticks w ∧
  chatbot_cache (snd (setup_chatbot_optimized w)) = chatbot_cache w ∧
  (trace (snd (setup_chatbot_optimized w)) = trace w ∨
   trace (snd (setup_chatbot_optimized w)) = trace w ++ [EvWarning import_warning]) ∧
  (session (snd (setup_chatbot_optimized w)) = session w ∨
   (CHATBOT_AVAILABLE = true ∧
    (∃ i l, session w !! "chatbot_initialized" = Some i ∧ truthy i = false ∧
            session w !! "chatbot_loading" = Some l ∧ truthy l = false) ∧
    session (snd (setup_chatbot_optimized w)) =
      <["chatbot_loading" := VBool true]> (session w))).
Proof.
  unfold setup_chatbot_optimized. destruct CHATBOT_AVAILABLE; cbn [negb]; run.
  - destruct (session w !! "chatbot_initialized") as [i|] eqn:Hi; run; [|tauto].
    destruct (truthy i) eqn:Ti; cbn [negb]; run.
    { rewrite Hi. tauto. }
    destruct (session w !! "chatbot_loading") as [l|] eqn:Hl; run; [|tauto].
    destruct (truthy l) eqn:Tl; cbn [negb]; run.
    { rewrite Hi. tauto. }
    rewrite lookup_insert_ne by discriminate. rewrite Hi. cbn.
    repeat split; eauto 10.
  - destruct (session w !! "page_load_count") as [c|]; run; [|tauto].
    destruct (py_eq_one c); cbn; tauto.
Qed.

(** What [setup_chatbot_optimized] returns. *)
Lemma setup_chatbot_optimized_result (w : world) :
  (∀ v, fst (setup_chatbot_optimized w) = Ret v →
        if CHATBOT_AVAILABLE then session w !! "chatbot_initialized" = Some v
        else v = VBool false) ∧
  (CHATBOT_AVAILABLE = true →
   ∀ i, session w !! "chatbot_initialized" = Some i →
        truthy i = true ∨ is_Some (session w !! "chatbot_loading") →
        fst (setup_chatbot_optimized w) = Ret i) ∧
  (CHATBOT_AVAILABLE = false →
   is_Some (session w !! "page_load_count") →
   fst (setup_chatbot_optimized w) = Ret (VBool false)).
Proof.
  unfold setup_chatbot_optimized. split; [|split].
  - intros v. destruct CHATBOT_AVAILABLE; cbn [negb]; run.
    + destruct (session w !! "chatbot_initialized") as [i|] eqn:Hi; run;
        [|discriminate].
      destruct (truthy i); cbn [negb]; run.
      { rewrite Hi. cbn. congruence. }
      destruct (session w !! "chatbot_loading") as [l|]; run; [|discriminate].
      destruct (truthy l); cbn [negb]; run;
        rewrite ?lookup_insert_ne by discriminate; rewrite Hi; cbn; congruence.
    + destruct (session w !! "page_load_count") as [c|]; run; [|discriminate].
      destruct (py_eq_one c); cbn; congruence.
  - intros -> i Hi Hl. cbn [negb]. run. rewrite Hi. run.
    destruct (truthy i); cbn [negb]; run.
    { now rewrite Hi. }
    destruct Hl as [|[l Hl]]; [discriminate|]. rewrite Hl. run.
    destruct (truthy l); cbn [negb]; run;
      rewrite ?lookup_insert_ne by discriminate; now rewrite Hi.
  - intros -> [c Hc]. cbn [negb]. run. rewrite Hc. run.
    now destruct (py_eq_one c).
Qed.


(** What [initialize_session_state] leaves alone outside the session. *)
Lemma initialize_session_state_world (w : world) :
  trace (snd (initialize_session_state w)) = trace w ∧
  chatbot_cache (snd (initialize_session_state w)) = chatbot_cache w.
Proof.
  rewrite initialize_session_state_run.
  now destruct (init_counter_block _ _) as [[o s] n].
Qed.

(** The session after the counter block holds whatever was defined before. *)
Lemma init_counter_block_defined (s : gmap string value) (n : nat) (k : string) :
  is_Some (s !! k) → is_Some ((init_counter_block s n).1.2 !! k).
Proof.
  intros Hk. unfold init_counter_block.
  destruct (s !! "page_load_count") as [[]|]; cbn [fst snd];
    rewrite ?lookup_insert_is_Some'; tauto.
Qed.

Lemma init_counter_block_other (s : gmap string value) (n : nat) (k : string) :
  k ≠ "page_load_count" → k ≠ "last_activity" →
  (init_counter_block s n).1.2 !! k = s !! k.
Proof.
  intros H1 H2. unfold init_counter_block.
  destruct (s !! "page_load_count") as [[]|]; cbn [fst snd];
    rewrite ?lookup_insert_ne by done; reflexivity.
Qed.

Lemma initialize_session_state_session (w : world) :
  session (snd (initialize_session_state w)) =
    (init_counter_block (init_chatbot_block (init_app_block (session w))) (ticks w)).1.2.
Proof.
  rewrite initialize_session_state_run.
  now destruct (init_counter_block _ _) as [[o s] n].
Qed.

(** The guards keep whole blocks whole. *)
Lemma groups_complete_run_op (o : op) (w : world) :
  groups_complete (session w) → groups_complete (session (snd (run_op o w))).
Proof.
  intros Hg. destruct o; cbn [run_op].
  - rewrite initialize_session_state_session.
    pose proof (init_blocks_defined _ Hg) as Hd.
    repeat match goal with
           | H : Forall _ (_ :: _) |- _ => apply Forall_cons in H as [? H]
           end.
    split; intros _; repeat split; now apply init_counter_block_defined.
  - unfold bind, ret.
    pose proof (setup_chatbot_optimized_effect w) as (_ & _ & _ & Hs).
    destruct (setup_chatbot_optimized w) as [[v|e|] w']; cbn [fst snd] in *;
      (destruct Hs as [->|(_ & _ & ->)]; [done|]);
      destruct Hg as [Ha Hc];
      (split; intros Hk; rewrite lookup_insert_ne in Hk by discriminate;
       rewrite ?lookup_insert_is_Some'; [specialize (Ha Hk)|specialize (Hc Hk)];
       tauto).
  - destruct Hg as [Ha Hc]. split; intros Hk;
      rewrite cleanup_old_data_other_keys in Hk by discriminate;
      [specialize (Ha Hk)|specialize (Hc Hk)];
      repeat split; apply cleanup_old_data_defined; tauto.
Qed.

Lemma groups_complete_empty : groups_complete ∅.
Proof. split; intros [v Hv]; now rewrite lookup_empty in Hv. Qed.

(** C7, as the code has it. On a session whose blocks are whole (the empty
    session of a first page load is one, and the functions of this file keep
    them whole), [initialize_session_state] returns unless [page_load_count]
    holds something that is not a number, and when it returns all nine
    fields are defined, so that the reads of [setup_chatbot_optimized] and
    [cleanup_old_data] find their keys. *)
Theorem initialize_defines_fields (w : world) :
  groups_complete (session w) →
  (∀ w', initialize_session_state w = (Ret tt, w') →
         all_fields_defined (session w') ∧
         (∀ k, fst (setup_chatbot_optimized w') ≠ Raise (AttributeError k)) ∧
         (∀ k, fst (cleanup_old_data (snd (setup_chatbot_optimized w'))) ≠
               Raise (AttributeError k))) ∧
  (session w !! "page_load_count" = None ∨
   (∃ n, session w !! "page_load_count" = Some (VInt n)) ∨
   (∃ b, session w !! "page_load_count" = Some (VBool b)) →
   fst (initialize_session_state w) = Ret tt) ∧
  groups_complete (session (snd (initialize_session_state w))).
Proof.
  intros Hg. split; [|split].
  - intros w' Hrun.
    assert (Hall : all_fields_defined (session w')).
    { pose proof (initialize_session_state_session w) as Hs.
      rewrite Hrun in Hs. cbn [snd] in Hs. rewrite Hs.
      rewrite initialize_session_state_run in Hrun.
      pose proof (init_blocks_defined _ Hg) as Hd.
      repeat match goal with
             | H : Forall _ (_ :: _) |- _ => apply Forall_cons in H as [? H]
             end.
      unfold all_fields_defined, session_fields.
      repeat (apply Forall_cons; split); try (now apply Forall_nil);
        try (now apply init_counter_block_defined).
      - unfold init_counter_block in *.
        destruct (_ !! "page_load_count") as [[]|]; cbn [fst snd] in *;
          try discriminate;
          rewrite lookup_insert_ne by discriminate;
          rewrite lookup_insert_eq; eauto.
      - unfold init_counter_block in *.
        destruct (_ !! "page_load_count") as [[]|]; cbn [fst snd] in *;
          try discriminate; rewrite lookup_insert_eq; eauto. }
    split; [exact Hall|].
    unfold all_fields_defined, session_fields in Hall.
    repeat match goal with
           | H : Forall _ (_ :: _) |- _ => apply Forall_cons in H as [? H]
           end.
    split.
    + intros k Hr. unfold setup_chatbot_optimized in Hr.
      repeat match goal with
             | H : is_Some (session w' !! _) |- _ => destruct H as [? H]
             end.
      destruct CHATBOT_AVAILABLE; cbn [negb] in Hr; run;
        repeat (case_match; run; simplify_eq);
        rewrite ?lookup_insert_ne in * by discriminate; simplify_eq.
    + intros k. apply cleanup_old_data_no_attribute_error.
      * pose proof (setup_chatbot_optimized_effect w') as (_ & _ & _ & [->|(_ & _ & ->)]);
          rewrite ?lookup_insert_is_Some'; tauto.
      * pose proof (setup_chatbot_optimized_effect w') as (_ & _ & _ & [->|(_ & _ & ->)]);
          rewrite ?lookup_insert_is_Some'; tauto.
  - intros Hp. rewrite initialize_session_state_run.
    rewrite <- (init_blocks_lookup (session w) "page_load_count") in Hp
      by discriminate.
    unfold init_counter_block.
    destruct Hp as [->|[[n ->]|[b ->]]]; reflexivity.
  - apply (groups_complete_run_op OpInit _ Hg).
Qed.


(** ** The activity stamp along a run *)

Lemma run_op_stamp (o : op) (w : world) :
  stamp_kept_or_clock w (snd (run_op o w)).
Proof.
  unfold stamp_kept_or_clock. destruct o; cbn [run_op].
  - rewrite initialize_session_state_run.
    pose proof (init_blocks_lookup (session w) "last_activity") as Hla.
    pose proof (init_blocks_lookup (session w) "page_load_count") as Hpc.
    unfold init_counter_block.
    destruct (_ !! "page_load_count") as [[]|]; cbn [fst snd session ticks set_ticks set_session];
      rewrite ?lookup_insert_eq;
      try (split; [lia|left; apply Hla; discriminate]).
    + split; [lia|]. right. exists (ticks w). split; [lia|done].
    + split; [lia|]. right. exists (ticks w). split; [lia|done].
    + split; [lia|]. right. exists (S (ticks w)). split; [lia|done].
  - unfold bind, ret.
    pose proof (setup_chatbot_optimized_effect w) as (Ht & _ & _ & Hs).
    destruct (setup_chatbot_optimized w) as [[v|e|] w']; cbn [fst snd] in *;
      (split; [lia|]); left;
      (destruct Hs as [->|(_ & _ & ->)]; [done|]);
      now rewrite lookup_insert_ne by discriminate.
  - pose proof (cleanup_old_data_world w) as (_ & _ & Ht).
    split; [exact Ht|]. left.
    now apply cleanup_old_data_other_keys.
Qed.

Lemma run_ops_stamps (ops : list op) (w : world) :
  (∀ i j, (i ≤ j)%nat → clock i ≤ clock j) →
  stamp_not_ahead w →
  stamps_ascend w (run_ops ops w).
Proof.
  intros Hmono. revert w. induction ops as [|o ops IH]; intros w Hw; cbn.
  - exact I.
  - destruct (run_op_stamp o w) as [Ht Hs].
    set (w' := snd (run_op o w)) in *.
    assert (Hstep : last_activity_le (session w) (session w')).
    { intros t Hla. destruct Hs as [Hs|(i & Hi & Hs)].
      - exists t. rewrite Hs. split; [done|lia].
      - exists (clock i). split; [done|].
        transitivity (clock (ticks w)); [now apply Hw|].
        apply Hmono. lia. }
    split; [exact Hstep|]. apply IH.
    intros t Hla. destruct Hs as [Hs|(i & Hi & Hs)].
    + rewrite Hs in Hla. transitivity (clock (ticks w)); [now apply Hw|].
      now apply Hmono.
    + rewrite Hs in Hla. injection Hla as <-. apply Hmono. lia.
Qed.

(** C8. [last_activity] never goes back: a step of the file either keeps the
    stamp or stores a clock reading taken during that step, so along every
    sequence of [initialize_session_state], [setup_chatbot_optimized] and
    [cleanup_old_data], read on a clock that does not run backwards from a
    session whose stamp is not ahead of it, the stamp after each step is at
    least the stamp before it. *)
Theorem last_activity_monotone (ops : list op) (w : world) :
  (∀ i j, (i ≤ j)%nat → clock i ≤ clock j) →
  stamp_not_ahead w →
  stamps_ascend w (run_ops ops w) ∧
  Forall (fun o => ∀ w0, stamp_kept_or_clock w0 (snd (run_op o w0))) ops.
Proof.
  intros Hmono Hw. split.
  - now apply run_ops_stamps.
  - apply Forall_forall. intros o _ w0. apply run_op_stamp.
Qed.

(** ** The chatbot fields along a run *)

Lemma setup_chatbot_optimized_untouched (w : world) :
  chatbot_untouched w (snd (setup_chatbot_optimized w)).
Proof.
  pose proof (setup_chatbot_optimized_effect w) as (_ & Hc & Htr & Hs).
  unfold chatbot_untouched. repeat split.
  - destruct Hs as [->|(_ & _ & ->)]; [done|].
    now rewrite lookup_insert_ne by discriminate.
  - destruct Hs as [->|(_ & _ & ->)]; [done|].
    now rewrite lookup_insert_ne by discriminate.
  - exact Hc.
  - destruct Htr as [->| ->]; [done|].
    intros [H|H]%elem_of_app; [done|].
    apply list_elem_of_singleton in H. discriminate.
Qed.

Lemma run_op_chatbot (o : op) (w : world) :
  session w !! "chatbot_loading" = Some (VBool true) →
  is_Some (session w !! "chatbot_initialized") →
  session (snd (run_op o w)) !! "chatbot_loading" = Some (VBool true) ∧
  chatbot_untouched w (snd (run_op o w)).
Proof.
  intros Hl Hi. destruct o; cbn [run_op].
  - pose proof (initialize_session_state_world w) as [Htr Hc].
    unfold chatbot_untouched. rewrite Htr, Hc.
    rewrite initialize_session_state_session.
    rewrite !init_counter_block_other by discriminate.
    rewrite init_chatbot_block_kept
      by (now rewrite init_app_block_chatbot by discriminate).
    rewrite !init_app_block_chatbot by discriminate. done.
  - unfold bind, ret.
    pose proof (setup_chatbot_optimized_untouched w) as Hu.
    pose proof (setup_chatbot_optimized_effect w) as (_ & _ & _ & Hs).
    destruct (setup_chatbot_optimized w) as [[v|e|] w']; cbn [fst snd] in *;
      (split; [|exact Hu]);
      (destruct Hs as [->|(_ & (i & l & _ & _ & Hl' & Tl) & _)]; [done|]);
      rewrite Hl in Hl'; injection Hl' as <-; discriminate.
  - pose proof (cleanup_old_data_world w) as (Htr & Hc & _).
    unfold chatbot_untouched. rewrite Htr, Hc.
    rewrite !cleanup_old_data_other_keys by discriminate. done.
Qed.

Lemma run_ops_chatbot (ops : list op) (w0 w : world) :
  session w !! "chatbot_loading" = Some (VBool true) →
  is_Some (session w !! "chatbot_initialized") →
  chatbot_untouched w0 w →
  Forall (fun w' => session w' !! "chatbot_loading" = Some (VBool true) ∧
                    chatbot_untouched w0 w')
         (run_ops ops w).
Proof.
  revert w. induction ops as [|o ops IH]; intros w Hl Hi Hu; cbn.
  - apply Forall_nil. exact I.
  - destruct (run_op_chatbot o w Hl Hi) as [Hl' Hu'].
    assert (Hu0 : chatbot_untouched w0 (snd (run_op o w))).
    { destruct Hu as (U1 & U2 & U3 & U4), Hu' as (V1 & V2 & V3 & V4).
      unfold chatbot_untouched. rewrite V1, V2, V3.
      repeat split; try assumption. intros H. apply U4, V4, H. }
    apply Forall_cons. split; [done|]. apply IH; [done| |done].
    destruct Hu' as [-> _]. exact Hi.
Qed.

(** C10, as the code has it. [setup_chatbot_optimized] builds and installs
    nothing: it adds no constructor call and keeps [chatbot_initialized],
    [chatbot] and the cache slot; when it returns, it returns the value
    [chatbot_initialized] had ([False] without the import), and it returns
    whenever the fields it reads are defined. Once [chatbot_loading] is
    [True], no sequence of [initialize_session_state],
    [setup_chatbot_optimized] and [cleanup_old_data] changes it or installs
    a chatbot. *)
Theorem setup_never_builds_chatbot (w : world) :
  chatbot_untouched w (snd (setup_chatbot_optimized w)) ∧
  (∀ v, fst (setup_chatbot_optimized w) = Ret v →
        if CHATBOT_AVAILABLE then session w !! "chatbot_initialized" = Some v
        else v = VBool false) ∧
  (CHATBOT_AVAILABLE = true →
   ∀ i, session w !! "chatbot_initialized" = Some i →
        truthy i = true ∨ is_Some (session w !! "chatbot_loading") →
        fst (setup_chatbot_optimized w) = Ret i) ∧
  (∀ ops, session w !! "chatbot_loading" = Some (VBool true) →
          is_Some (session w !! "chatbot_initialized") →
          Forall (fun w' => session w' !! "chatbot_loading" = Some (VBool true) ∧
                            chatbot_untouched w w')
                 (run_ops ops w)).
Proof.
  split; [apply setup_chatbot_optimized_untouched|].
  destruct (setup_chatbot_optimized_result w) as (Hr & Ht & _).
  split; [exact Hr|]. split; [exact Ht|].
  intros ops Hl Hi. apply run_ops_chatbot; [done|done|].
  unfold chatbot_untouched. auto.
Qed.

(** ** Page loads *)

Lemma init_app_block_kept (s : gmap string value) :
  is_Some (s !! "app_initialized") → init_app_block s = s.
Proof. intros H. unfold init_app_block. now rewrite bool_decide_eq_true_2. Qed.

Lemma init_blocks_guards (s : gmap string value) :
  is_Some (init_chatbot_block (init_app_block s) !! "app_initialized") ∧
  is_Some (init_chatbot_block (init_app_block s) !! "chatbot_initialized").
Proof.
  unfold init_chatbot_block, init_app_block.
  destruct (decide (is_Some (s !! "app_initialized"))) as [Ha|Ha];
    [rewrite (bool_decide_eq_true_2 _ Ha)|rewrite (bool_decide_eq_false_2 _ Ha)];
    rewrite ?(lookup_insert_ne _ _ "chatbot_initialized") by discriminate;
    (destruct (decide (is_Some (s !! "chatbot_initialized"))) as [Hc|Hc];
     [rewrite (bool_decide_eq_true_2 _ Hc)|rewrite (bool_decide_eq_false_2 _ Hc)]);
    split;
    rewrite ?lookup_insert_ne by discriminate; rewrite ?lookup_insert_eq;
    eauto.
Qed.

(** After [initialize_session_state], however it ends, both guard keys are
    defined. *)
Lemma initialize_session_state_guards (w : world) :
  is_Some (session (snd (initialize_session_state w)) !! "app_initialized") ∧
  is_Some (session (snd (initialize_session_state w)) !! "chatbot_initialized").
Proof.
  rewrite initialize_session_state_session.
  destruct (init_blocks_guards (session w)) as [Ha Hc].
  split; now apply init_counter_block_defined.
Qed.

(** X2. A page load after the first one writes only [page_load_count] and
    [last_activity]: whatever the session was, a second
    [initialize_session_state] keeps every other key as the first one left
    it (the chat history and the chatbot fields survive a rerun). *)
Theorem reload_keeps_fields (w : world) (k : string) :
  k ≠ "page_load_count" → k ≠ "last_activity" →
  session (snd (initialize_session_state (snd (initialize_session_state w)))) !! k =
    session (snd (initialize_session_state w)) !! k.
Proof.
  intros H1 H2.
  destruct (initialize_session_state_guards w) as [Ha Hc].
  rewrite (initialize_session_state_session (snd (initialize_session_state w))).
  rewrite (init_app_block_kept _ Ha), (init_chatbot_block_kept _ Hc).
  now apply init_counter_block_other.
Qed.

Lemma initialize_session_state_counts (w : world) :
  (∀ c, session w !! "page_load_count" = Some (VInt c) →
        session (snd (initialize_session_state w)) !! "page_load_count" =
          Some (VInt (c + 1))) ∧
  (session w !! "page_load_count" = None →
   session (snd (initialize_session_state w)) !! "page_load_count" =
     Some (VInt 1)).
Proof.
  rewrite initialize_session_state_session.
  pose proof (init_blocks_lookup (session w) "page_load_count") as Hp.
  unfold init_counter_block.
  split; [intros c Hc|intros Hc];
    rewrite Hp, Hc by discriminate; cbn [fst snd];
    rewrite lookup_insert_ne by discriminate; apply lookup_insert_eq.
Qed.

Lemma page_loads_S (n : nat) (w : world) :
  page_loads (S n) w = snd (initialize_session_state (page_loads n w)).
Proof. reflexivity. Qed.

(** X1. [page_load_count] counts the page loads: from a session without the
    counter it is [n] after [n >= 1] calls of [initialize_session_state],
    and from a counter [c] it is [c + n] after [n] calls. *)
Theorem page_load_count_counts (w : world) (n : nat) :
  (session w !! "page_load_count" = None →
   session (page_loads (S n) w) !! "page_load_count" =
     Some (VInt (Z.of_nat (S n)))) ∧
  (∀ c, session w !! "page_load_count" = Some (VInt c) →
        session (page_loads n w) !! "page_load_count" =
          Some (VInt (c + Z.of_nat n))).
Proof.
  assert (Hint : ∀ m c, session w !! "page_load_count" = Some (VInt c) →
                 session (page_loads m w) !! "page_load_count" =
                   Some (VInt (c + Z.of_nat m))).
  { induction m as [|m IH]; intros c Hc.
    - cbn. rewrite Hc. do 2 f_equal. lia.
    - rewrite page_loads_S.
      destruct (initialize_session_state_counts (page_loads m w)) as [Hs _].
      rewrite (Hs _ (IH c Hc)). do 2 f_equal. lia. }
  split; [|apply Hint].
  intros Hnone. induction n as [|n IH].
  - rewrite page_loads_S. change (page_loads 0 w) with w.
    now destruct (initialize_session_state_counts w) as [_ ->].
  - rewrite page_loads_S.
    destruct (initialize_session_state_counts (page_loads (S n) w)) as [Hs _].
    rewrite (Hs _ IH). do 2 f_equal. lia.
Qed.

Lemma initialize_session_state_stamp (w w' : world) :
  initialize_session_state w = (Ret tt, w') →
  session w' !! "last_activity" = Some (VDatetime (clock (pred (ticks w')))) ∧
  ticks w' = (if bool_decide (is_Some (session w !! "page_load_count"))
              then S (ticks w) else S (S (ticks w))).
Proof.
  rewrite initialize_session_state_run.
  pose proof (init_blocks_lookup (session w) "page_load_count") as Hp.
  unfold init_counter_block. rewrite Hp by discriminate.
  destruct (session w !! "page_load_count") as [[]|];
    intros [= <-]; cbn [session ticks set_session set_ticks pred];
    rewrite lookup_insert_eq;
    rewrite ?bool_decide_eq_true_2 by eauto;
    rewrite ?bool_decide_eq_false_2 by (intros [? ?]; discriminate);
    done.
Qed.

(** X3. When [initialize_session_state] returns, [last_activity] holds the
    most recent clock reading, and the clock was read once, or twice on the
    load that creates the counter. *)
Theorem initialize_refreshes_stamp (w w' : world) :
  initialize_session_state w = (Ret tt, w') →
  session w' !! "last_activity" = Some (VDatetime (clock (pred (ticks w')))) ∧
  ticks w' = (if bool_decide (is_Some (session w !! "page_load_count"))
              then S (ticks w) else S (S (ticks w))).
Proof. apply initialize_session_state_stamp. Qed.

(** X4. A [page_load_count] that is not a number makes
    [initialize_session_state] raise the [TypeError] of [+= 1], after the
    missing blocks were created and before the clock is read:
    [last_activity] and the counter stay as they were. *)
Theorem initialize_type_error (w : world) (v : value) :
  session w !! "page_load_count" = Some v →
  (∀ c, v ≠ VInt c) → (∀ b, v ≠ VBool b) →
  fst (initialize_session_state w) = Raise (TypeError "+") ∧
  ticks (snd (initialize_session_state w)) = ticks w ∧
  session (snd (initialize_session_state w)) !! "last_activity" =
    session w !! "last_activity" ∧
  session (snd (initialize_session_state w)) !! "page_load_count" = Some v ∧
  is_Some (session (snd (initialize_session_state w)) !! "app_initialized") ∧
  is_Some (session (snd (initialize_session_state w)) !! "chatbot_initialized").
Proof.
  intros Hv Hi Hb.
  destruct (initialize_session_state_guards w) as [Ga Gc].
  split; [|split; [|split; [|split; [|split]]]]; try assumption;
    rewrite initialize_session_state_run;
    pose proof (init_blocks_lookup (session w) "page_load_count") as Hp;
    pose proof (init_blocks_lookup (session w) "last_activity") as Hl;
    unfold init_counter_block; rewrite Hp, Hv by discriminate;
    destruct v; try (now destruct (Hi n)); try (now destruct (Hb b));
    cbn [fst snd session ticks set_session set_ticks];
    rewrite ?Hp, ?Hl by discriminate; done.
Qed.

(** ** The import warning *)

Lemma page_loads_trace (n : nat) (w : world) :
  trace (page_loads n w) = trace w.
Proof.
  induction n as [|n IH]; [reflexivity|].
  rewrite page_loads_S.
  now destruct (initialize_session_state_world (page_loads n w)) as [-> _].
Qed.

Lemma setup_chatbot_optimized_unavailable (w : world) (c : value) :
  CHATBOT_AVAILABLE = false →
  session w !! "page_load_count" = Some c →
  setup_chatbot_optimized w =
    (Ret (VBool false),
     if py_eq_one c
     then set_trace (fun t => t ++ [EvWarning import_warning]) w
     else w).
Proof.
  intros HA Hc. unfold setup_chatbot_optimized. rewrite HA. cbn [negb]. run.
  rewrite Hc. now destruct (py_eq_one c).
Qed.

(** X5. Without the chatbot import, the warning of
    [setup_chatbot_optimized] is shown on the first page load of a session
    and on no later one. *)
Theorem import_warning_first_load_only (w : world) (n : nat) :
  CHATBOT_AVAILABLE = false →
  session w !! "page_load_count" = None →
  fst (setup_chatbot_optimized (page_loads (S n) w)) = Ret (VBool false) ∧
  trace (snd (setup_chatbot_optimized (page_loads (S n) w))) =
    (if decide (n = 0%nat) then trace w ++ [EvWarning import_warning]
     else trace w).
Proof.
  intros HA Hnone.
  destruct (page_load_count_counts w n) as [Hc _]. specialize (Hc Hnone).
  rewrite (setup_chatbot_optimized_unavailable _ _ HA Hc). cbn [fst py_eq_one].
  split; [reflexivity|].
  destruct (Z.eqb_spec (Z.of_nat (S n)) 1) as [Heq|Hne];
    destruct (decide (n = 0%nat)) as [Hn|Hn]; try lia;
    cbn [snd trace set_trace]; now rewrite page_loads_trace.
Qed.

(** [setup_chatbot_optimized] with the import, case by case. *)
Lemma setup_chatbot_optimized_available (w : world) :
  CHATBOT_AVAILABLE = true →
  setup_chatbot_optimized w =
    match session w !! "chatbot_initialized" with
    | None => (Raise (AttributeError "chatbot_initialized"), w)
    | Some i =>
        if truthy i then (Ret i, w)
        else match session w !! "chatbot_loading" with
             | None => (Raise (AttributeError "chatbot_loading"), w)
             | Some l =>
                 if truthy l then (Ret i, w)
                 else (Ret i, set_session (insert "chatbot_loading" (VBool true)) w)
             end
    end.
Proof.
  intros HA. unfold setup_chatbot_optimized. rewrite HA. cbn [negb]. run.
  destruct (session w !! "chatbot_initialized") as [i|] eqn:Hi; run; [|done].
  destruct (truthy i); cbn [negb]; run; [now rewrite Hi|].
  destruct (session w !! "chatbot_loading") as [l|]; run; [|done].
  destruct (truthy l); cbn [negb]; run; [now rewrite Hi|].
  rewrite lookup_insert_ne by discriminate. now rewrite Hi.
Qed.

(** X6. [setup_chatbot_optimized] is idempotent on the session: a second
    call ends like the first and leaves the session as the first left it. *)
Theorem setup_chatbot_optimized_idempotent (w : world) :
  fst (setup_chatbot_optimized (snd (setup_chatbot_optimized w))) =
    fst (setup_chatbot_optimized w) ∧
  session (snd (setup_chatbot_optimized (snd (setup_chatbot_optimized w)))) =
    session (snd (setup_chatbot_optimized w)).
Proof.
  destruct (decide (CHATBOT_AVAILABLE = true)) as [HA|HA];
    [|apply not_true_is_false in HA].
  - rewrite (setup_chatbot_optimized_available w HA).
    destruct (session w !! "chatbot_initialized") as [i|] eqn:Hi; cbn [fst snd].
    2:{ rewrite (setup_chatbot_optimized_available w HA). now rewrite Hi. }
    destruct (truthy i) eqn:Ti; cbn [fst snd].
    { rewrite (setup_chatbot_optimized_available w HA). now rewrite Hi, Ti. }
    destruct (session w !! "chatbot_loading") as [l|] eqn:Hl; cbn [fst snd].
    2:{ rewrite (setup_chatbot_optimized_available w HA).
        now rewrite Hi, Ti, Hl. }
    destruct (truthy l) eqn:Tl; cbn [fst snd].
    { rewrite (setup_chatbot_optimized_available w HA).
      now rewrite Hi, Ti, Hl, Tl. }
    rewrite (setup_chatbot_optimized_available _ HA).
    cbn [session set_session].
    rewrite lookup_insert_ne by discriminate. rewrite Hi, Ti.
    now rewrite lookup_insert_eq.
  - destruct (session w !! "page_load_count") as [c|] eqn:Hc.
    + rewrite (setup_chatbot_optimized_unavailable w c HA Hc). cbn [fst snd].
      assert (Hc' : session (if py_eq_one c
                             then set_trace (fun t => t ++ [EvWarning import_warning]) w
                             else w) !! "page_load_count" = Some c)
        by now destruct (py_eq_one c).
      rewrite (setup_chatbot_optimized_unavailable _ c HA Hc'). cbn [fst snd].
      split; [reflexivity|]. now destruct (py_eq_one c).
    + unfold setup_chatbot_optimized. rewrite HA. cbn [negb]. run. rewrite Hc. cbn [fst snd].
      now rewrite Hc.
Qed.

(** ** Failures of cleanup_old_data *)

(** The connection fields change only on the stale branch, which needs a
    datetime in [last_activity] that is more than two hours old. *)
Lemma cleanup_old_data_connection_kept (w : world) (k : string) :
  k ≠ "chat_history" →
  (∀ t, session w !! "last_activity" = Some (VDatetime t) →
        ¬ (t < clock (ticks w) - two_hours)) →
  session (snd (cleanup_old_data w)) !! k = session w !! k.
Proof.
  intros Hk Hfresh. unfold cleanup_old_data. run.
  destruct (session w !! "chat_history") as [h|] eqn:Hh; run; [|done].
  destruct h as [| | | |l|]; run; try done.
  destruct (bool_decide (max_history < length l)%nat); run;
    rewrite ?Hh; run; rewrite ?(lookup_insert_ne _ "chat_history") by discriminate;
    (destruct (session w !! "last_activity") as [a|] eqn:Ha; run;
     [|now rewrite ?lookup_insert_ne by done]);
    (destruct a; run; try (now rewrite ?lookup_insert_ne by done));
    (destruct (Z.ltb_spec t (clock (ticks w) - two_hours)) as [Hlt|_];
     [now destruct (Hfresh t eq_refl)|]); run;
    now rewrite ?lookup_insert_ne by done.
Qed.

Lemma cleanup_old_data_other_keys_stamp (w : world) (k : string) (a : value) :
  k ≠ "chat_history" →
  session w !! "last_activity" = Some a → (∀ t, a ≠ VDatetime t) →
  session (snd (cleanup_old_data w)) !! k = session w !! k.
Proof.
  intros Hk Ha Hna. apply cleanup_old_data_connection_kept; [done|].
  intros t Ht. rewrite Ha in Ht. injection Ht as ->. now destruct (Hna t).
Qed.

(** X7. What [cleanup_old_data] does on a session it cannot handle: without
    [chat_history], or with one that has no length, it raises at once and
    changes nothing; when [last_activity] is undefined or not a datetime it
    raises after the history has been cut, in the second case after the
    clock was read, and the connection fields are not reset. *)
Theorem cleanup_old_data_failures (w : world) :
  (session w !! "chat_history" = None →
   cleanup_old_data w = (Raise (AttributeError "chat_history"), w)) ∧
  (∀ v, session w !! "chat_history" = Some v → (∀ l, v ≠ VList l) →
        cleanup_old_data w = (Raise (TypeError "len"), w)) ∧
  (∀ l, session w !! "chat_history" = Some (VList l) →
        session w !! "last_activity" = None →
        fst (cleanup_old_data w) = Raise (AttributeError "last_activity") ∧
        ticks (snd (cleanup_old_data w)) = ticks w ∧
        session (snd (cleanup_old_data w)) !! "chat_history" =
          Some (VList (slice_last max_history l))) ∧
  (∀ l a, session w !! "chat_history" = Some (VList l) →
          session w !! "last_activity" = Some a → (∀ t, a ≠ VDatetime t) →
          fst (cleanup_old_data w) = Raise (TypeError "<") ∧
          ticks (snd (cleanup_old_data w)) = S (ticks w) ∧
          session (snd (cleanup_old_data w)) !! "chat_history" =
            Some (VList (slice_last max_history l)) ∧
          session (snd (cleanup_old_data w)) !! "connection_status" =
            session w !! "connection_status" ∧
          session (snd (cleanup_old_data w)) !! "last_connection_check" =
            session w !! "last_connection_check").
Proof.
  split; [|split; [|split]].
  - intros Hh. unfold cleanup_old_data. run. now rewrite Hh.
  - intros v Hh Hv. unfold cleanup_old_data. run. rewrite Hh. run.
    destruct v; try reflexivity. now destruct (Hv l).
  - intros l Hh Ha.
    split; [|split]; [| |now rewrite cleanup_old_data_history, Hh];
      unfold cleanup_old_data; run; rewrite Hh; run;
      destruct (bool_decide (max_history < length l)%nat); run;
      rewrite ?Hh; run; rewrite ?lookup_insert_ne by discriminate;
      now rewrite Ha.
  - intros l a Hh Ha Hna.
    split; [|split; [|split; [|split]]];
      [| |now rewrite cleanup_old_data_history, Hh
       |now apply (cleanup_old_data_other_keys_stamp w _ a)
       |now apply (cleanup_old_data_other_keys_stamp w _ a)].
    all: unfold cleanup_old_data; run; rewrite Hh; run;
      destruct (bool_decide (max_history < length l)%nat); run;
      rewrite ?Hh; run; rewrite ?lookup_insert_ne by discriminate;
      rewrite Ha; run; destruct a; try reflexivity; now destruct (Hna t).
Qed.

Lemma slice_last_idempotent (n : nat) (l : list value) :
  slice_last n (slice_last n l) = slice_last n l.
Proof. apply slice_last_short. rewrite slice_last_length. lia. Qed.

(** X8. Cutting is idempotent: a second [cleanup_old_data] leaves
    [chat_history] as the first one left it, whatever it holds. *)
Theorem cleanup_old_data_history_idempotent (w : world) :
  session (snd (cleanup_old_data (snd (cleanup_old_data w)))) !! "chat_history" =
    session (snd (cleanup_old_data w)) !! "chat_history".
Proof.
  rewrite (cleanup_old_data_history (snd (cleanup_old_data w))).
  rewrite cleanup_old_data_history.
  destruct (session w !! "chat_history") as [[| | | |l|]|]; try reflexivity.
  now rewrite slice_last_idempotent.
Qed.

(** ** handle_app_errors on a run that does not raise *)

(** X9. When [main] does not raise (it returns, or stops on a rerun
    signal), [handle_app_errors] ends exactly as [main] does: no error
    message, no reset button. And showing the error does not touch the
    session: unless the reset button is pressed, the session after
    [handle_app_errors] is the one [main] left. *)
Theorem handle_app_errors_transparent (w : world) :
  ((∀ e, fst (main w) ≠ Raise e) → handle_app_errors w = main w) ∧
  (button_clicked reset_label = false →
   session (snd (handle_app_errors w)) = session (snd (main w))).
Proof.
  rewrite handle_app_errors_run. split.
  - intros Hne. destruct (main w) as [[[]|e|] w1]; try reflexivity.
    now destruct (Hne e).
  - intros Hb. destruct (main w) as [[[]|e|] w1]; try reflexivity.
    now rewrite Hb.
Qed.

(** ** Reset and reload *)

Lemma first_load_lookup (s : gmap string value) (n : nat) :
  s = ∅ →
  (init_counter_block (init_chatbot_block (init_app_block s)) n) =
    (Ret tt,
     <["last_activity" := VDatetime (clock (S n))]>
       (<["page_load_count" := VInt 1]>
          (<["last_activity" := VDatetime (clock n)]>
             (<["page_load_count" := VInt 0]>
                (<["chatbot_loading" := VBool false]>
                   (<["chat_history" := VList []]>
                      (<["chatbot" := VNone]>
                         (<["chatbot_initialized" := VBool false]>
                            (<["connection_status" := VNone]>
                               (<["last_connection_check" := VNone]>
                                  (<["app_initialized" := VBool true]> ∅)))))))))),
     S (S n)).
Proof.
  intros ->. unfold init_counter_block, init_chatbot_block, init_app_block.
  rewrite lookup_empty.
  rewrite (bool_decide_eq_false_2 (is_Some None)) by (intros [? ?]; discriminate).
  rewrite !(lookup_insert_ne _ _ "chatbot_initialized") by discriminate.
  rewrite lookup_empty.
  rewrite (bool_decide_eq_false_2 (is_Some None)) by (intros [? ?]; discriminate).
  rewrite !(lookup_insert_ne _ _ "page_load_count") by discriminate.
  now rewrite lookup_empty.
Qed.

(** X10. The reset brings the session back to a first page load: after the
    reset branch of [handle_app_errors], the next
    [initialize_session_state] returns and the session is the one of a
    first load, with every field at its first value, [page_load_count] 1
    and a fresh stamp, whatever the session held before. *)
Theorem reset_then_reload_is_first_load (w : world) :
  fst (initialize_session_state (snd (reset_app w))) = Ret tt ∧
  session (snd (initialize_session_state (snd (reset_app w)))) =
    <["last_activity" := VDatetime (clock (S (ticks w)))]>
      (<["page_load_count" := VInt 1]> first_load_session).
Proof.
  rewrite reset_app_run. cbn [snd].
  rewrite initialize_session_state_run. cbn [session ticks set_session].
  rewrite (first_load_lookup ∅ (ticks w) eq_refl).
  cbn [fst snd session set_session set_ticks]. split; [reflexivity|].
  apply map_eq. intros k. unfold first_load_session. cbn [list_to_map foldr fst snd uncurry].
  destruct (decide (k ∈ session_fields)) as [Hk|Hk].
  - unfold session_fields in Hk.
    repeat (apply elem_of_cons in Hk as [->|Hk];
            [repeat (rewrite lookup_insert_eq
                     || rewrite lookup_insert_ne by discriminate);
             reflexivity|]).
    now apply elem_of_nil in Hk.
  - unfold session_fields in Hk.
    repeat (apply not_elem_of_cons in Hk as [? Hk]).
    rewrite !lookup_insert_ne by congruence. reflexivity.
Qed.

(** ** main *)

Lemma call_ext_effect {A} (name : string) (f : ext A) (w : world) :
  ticks (snd (call_ext name f w)) = ticks w ∧
  ∀ k, ext_keeps k f → session (snd (call_ext name f w)) !! k = session w !! k.
Proof.
  unfold call_ext. destruct (f (session w)) as [o s'] eqn:Hf. cbn. split; [done|].
  intros k Hk. specialize (Hk (session w)). now rewrite Hf in Hk.
Qed.

Lemma load_cached_css_effect (w : world) :
  ticks (snd (load_cached_css w)) = ticks w ∧
  ∀ k, ext_keeps k load_custom_css →
       session (snd (load_cached_css w)) !! k = session w !! k.
Proof.
  unfold load_cached_css, st_cache.
  destruct (css_cache w) as [[v els]|]; [done|].
  pose proof (call_ext_effect "load_custom_css" load_custom_css w) as [Ht Hs].
  destruct (call_ext "load_custom_css" load_custom_css w) as [[c|e|] w'];
    cbn [fst snd] in *; done.
Qed.

Lemma setup_chatbot_optimized_keeps (w : world) (k : string) :
  k ≠ "chatbot_loading" →
  session (snd (setup_chatbot_optimized w)) !! k = session w !! k.
Proof.
  intros Hk.
  pose proof (setup_chatbot_optimized_effect w) as (_ & _ & _ & [->|(_ & _ & ->)]);
    [done|]. now rewrite lookup_insert_ne.
Qed.

(** [main] ends either in a world [w4] reached from the world after
    [initialize_session_state] by the stylesheet, the header, the chatbot
    setup and the chat interface, or in the world [cleanup_old_data] makes
    of such a [w4]; on the way the clock is not read, and only the
    collaborators and [chatbot_loading] are written. *)
Lemma main_final_world (w : world) :
  ∃ w4,
    ticks w4 = ticks (snd (initialize_session_state w)) ∧
    (∀ k, k ≠ "chatbot_loading" →
          ext_keeps k load_custom_css → ext_keeps k create_chatbot_interface →
          session w4 !! k = session (snd (initialize_session_state w)) !! k) ∧
    (snd (main w) = w4 ∨
     (fst (initialize_session_state w) = Ret tt ∧
      snd (main w) = snd (cleanup_old_data w4))).
Proof.
  remember (snd (main w)) as wf eqn:Hwf.
  unfold main, st_set_page_config, get_header_content, st_markdown in Hwf.
  unfold bind at 1 in Hwf. unfold emit at 1 in Hwf.
  set (w0 := set_trace (fun t => t ++ [EvPageConfig]) w) in *.
  assert (Hw0 : initialize_session_state w0 =
                (fst (initialize_session_state w),
                 set_trace (fun t => t ++ [EvPageConfig])
                   (snd (initialize_session_state w)))).
  { rewrite !initialize_session_state_run. subst w0.
    cbn [session ticks set_trace].
    now destruct (init_counter_block _ _) as [[o s] n]. }
  unfold bind at 1 in Hwf. rewrite Hw0 in Hwf.
  set (w1 := snd (initialize_session_state w)) in *.
  destruct (fst (initialize_session_state w)) as [[]|e|] eqn:Hinit;
    [|exists wf; subst wf; split; [|split; [|left; reflexivity]]; done..].
  unfold bind at 1 in Hwf.
  set (w1' := set_trace _ w1) in *.
  pose proof (load_cached_css_effect w1') as [Ht2 Hs2].
  change (ticks w1') with (ticks w1) in Ht2.
  change (session w1') with (session w1) in Hs2.
  destruct (load_cached_css w1') as [[c|e|] w2]; cbn [fst snd] in *;
    [|exists w2; split; [|split; [|left; exact Hwf]];
      [exact Ht2|intros k _ Hk _; now apply Hs2]..].
  unfold bind at 1, ret at 1 in Hwf. unfold bind at 1, emit at 1 in Hwf.
  set (w2' := set_trace _ w2) in *.
  unfold bind at 1 in Hwf.
  pose proof (setup_chatbot_optimized_effect w2') as (Ht3 & _).
  pose proof (setup_chatbot_optimized_keeps w2') as Hs3.
  change (ticks w2') with (ticks w2) in Ht3.
  change (session w2') with (session w2) in Hs3.
  destruct (setup_chatbot_optimized w2') as [[v|e|] w3]; cbn [fst snd] in *;
    [|exists w3; split; [|split; [|left; exact Hwf]];
      [now rewrite Ht3, Ht2
      |intros k Hl Hk _; now rewrite Hs3, Hs2]..].
  unfold bind at 1 in Hwf.
  pose proof (call_ext_effect "create_chatbot_interface" create_chatbot_interface w3)
    as [Ht4 Hs4].
  destruct (call_ext "create_chatbot_interface" create_chatbot_interface w3)
    as [[[]|e|] w4]; cbn [fst snd] in *;
    (exists w4; split; [|split];
     [now rewrite Ht4, Ht3, Ht2
     |intros k Hl Hk Hk'; now rewrite Hs4, Hs3, Hs2
     |]).
  - right. split; [reflexivity|exact Hwf].
  - left. exact Hwf.
  - left. exact Hwf.
Qed.

Lemma init_chatbot_block_other (s : gmap string value) (k : string) :
  k ≠ "chatbot_initialized" → k ≠ "chatbot" → k ≠ "chat_history" →
  k ≠ "chatbot_loading" →
  init_chatbot_block s !! k = s !! k.
Proof.
  intros. unfold init_chatbot_block.
  case_bool_decide; rewrite ?lookup_insert_ne by done; reflexivity.
Qed.

(** X11. [main] writes no key of its own outside the nine session fields:
    a key that neither [load_custom_css] nor [create_chatbot_interface]
    writes and that is not one of the nine is after [main], however it
    ends, what it was before. *)
Theorem main_frame (w : world) (k : string) :
  k ∉ session_fields →
  ext_keeps k load_custom_css → ext_keeps k create_chatbot_interface →
  session (snd (main w)) !! k = session w !! k.
Proof.
  intros Hk Hcss Hchat. unfold session_fields in Hk.
  repeat (apply not_elem_of_cons in Hk as [? Hk]).
  assert (Hinit : session (snd (initialize_session_state w)) !! k = session w !! k).
  { rewrite initialize_session_state_session.
    rewrite init_counter_block_other by done.
    now apply init_blocks_lookup. }
  destruct (main_final_world w) as (w4 & _ & Hs & [->|[_ ->]]).
  - now rewrite Hs.
  - rewrite cleanup_old_data_other_keys by done. now rewrite Hs.
Qed.

(** X12. Inside [main] the two-hour expiry does not fire: on a session
    that already went through a page load, when the collaborators leave
    [last_activity] and the connection fields alone and less than two hours
    pass between two clock readings, [main] leaves [connection_status] and
    [last_connection_check] as they were, since [initialize_session_state]
    has just refreshed the stamp that [cleanup_old_data] tests. *)
Theorem main_keeps_connection (w : world) (k : string) :
  k = "connection_status" ∨ k = "last_connection_check" →
  is_Some (session w !! "app_initialized") →
  ext_keeps k load_custom_css → ext_keeps k create_chatbot_interface →
  ext_keeps "last_activity" load_custom_css →
  ext_keeps "last_activity" create_chatbot_interface →
  (∀ i, clock (S i) - two_hours ≤ clock i) →
  session (snd (main w)) !! k = session w !! k.
Proof.
  intros Hk Happ Hcss Hchat Hcss' Hchat' Hclock.
  assert (Hinit : session (snd (initialize_session_state w)) !! k = session w !! k).
  { rewrite initialize_session_state_session.
    rewrite init_counter_block_other by (destruct Hk as [-> | ->]; discriminate).
    rewrite init_chatbot_block_other by (destruct Hk as [-> | ->]; discriminate).
    now rewrite init_app_block_kept. }
  destruct (main_final_world w) as (w4 & Ht & Hs & [->|[Hret ->]]).
  - rewrite Hs; [done| |done|done]. destruct Hk as [-> | ->]; discriminate.
  - destruct (initialize_session_state w) as [o w1] eqn:Hrun.
    cbn [fst snd] in *. subst o.
    destruct (initialize_session_state_stamp w w1 Hrun) as [Hla Hticks].
    assert (Hpos : ∃ i, ticks w1 = S i)
      by (destruct (bool_decide _) in Hticks; eauto).
    destruct Hpos as [i Hi].
    rewrite cleanup_old_data_connection_kept.
    + rewrite Hs; [done| |done|done]. destruct Hk as [-> | ->]; discriminate.
    + destruct Hk as [-> | ->]; discriminate.
    + intros t Ht4. rewrite Hs in Ht4 by (done || discriminate).
      rewrite Hla, Hi in Ht4. cbn [pred] in Ht4. injection Ht4 as <-.
      rewrite Ht, Hi. specialize (Hclock i). lia.
Qed.

(** ** get_performance_metrics *)

(** The three functions write nothing outside the nine session fields. *)
Lemma run_op_frame (o : op) (w : world) (k : string) :
  k ∉ session_fields →
  session (snd (run_op o w)) !! k = session w !! k.
Proof.
  intros Hk. unfold session_fields in Hk.
  repeat (apply not_elem_of_cons in Hk as [? Hk]).
  destruct o; cbn [run_op].
  - rewrite initialize_session_state_session.
    rewrite init_counter_block_other by done.
    now apply init_blocks_lookup.
  - unfold bind, ret.
    pose proof (setup_chatbot_optimized_keeps w k) as Hs.
    destruct (setup_chatbot_optimized w) as [[v|e|] w']; cbn [fst snd] in *;
      now apply Hs.
  - now apply cleanup_old_data_other_keys.
Qed.

Lemma get_performance_metrics_body_run (w : world) :
  get_performance_metrics_body w =
    match session w !! "page_load_count" with
    | None => (Raise (AttributeError "page_load_count"), w)
    | Some p =>
        match session w !! "last_activity" with
        | None => (Raise (AttributeError "last_activity"), w)
        | Some (VDatetime t) =>
            (Ret (Metrics (default (VInt 0) (session w !! "connection_checks"))
                    p (strftime_hms t)), w)
        | Some _ => (Raise (AttributeError "strftime"), w)
        end
    end.
Proof.
  unfold get_performance_metrics_body, get_item_default, py_strftime_hms. run.
  destruct (session w !! "page_load_count") as [p|]; [|reflexivity].
  destruct (session w !! "last_activity") as [[]|]; reflexivity.
Qed.

(** X16. The metrics exist exactly from the first page load on: before it
    (no [page_load_count]) [get_performance_metrics] raises
    [AttributeError] and changes nothing; once
    [initialize_session_state] has returned, it returns the counter and the
    time of day of the reading the load has just stored, and changes
    nothing. *)
Theorem metrics_after_page_load (w : world) :
  (session w !! "page_load_count" = None →
   get_performance_metrics_body w = (Raise (AttributeError "page_load_count"), w)) ∧
  (∀ w', initialize_session_state w = (Ret tt, w') →
         ∃ m, get_performance_metrics_body w' = (Ret m, w') ∧
              session w' !! "page_load_count" = Some (m_page_loads m) ∧
              m_last_activity m = strftime_hms (clock (pred (ticks w')))).
Proof.
  split.
  - intros Hp. rewrite get_performance_metrics_body_run. now rewrite Hp.
  - intros w' Hrun.
    destruct (initialize_session_state_stamp w w' Hrun) as [Hla _].
    assert (Hp : is_Some (session w' !! "page_load_count")).
    { pose proof (initialize_session_state_session w) as Hs.
      rewrite Hrun in Hs. cbn [snd] in Hs. rewrite Hs.
      rewrite initialize_session_state_run in Hrun.
      unfold init_counter_block in *.
      destruct (_ !! "page_load_count") as [[]|]; cbn [fst snd] in *;
        try discriminate;
        rewrite lookup_insert_ne by discriminate;
        rewrite lookup_insert_eq; eauto. }
    destruct Hp as [p Hp].
    rewrite get_performance_metrics_body_run, Hp, Hla. eauto.
Qed.

(** X17. Nothing in the file counts connection checks: on a session
    without [connection_checks], no sequence of
    [initialize_session_state], [setup_chatbot_optimized] and
    [cleanup_old_data] defines the key, so whenever
    [get_performance_metrics] returns afterwards it reports 0. *)
Theorem connection_checks_stay_zero (ops : list op) (w : world) :
  session w !! "connection_checks" = None →
  Forall (fun w' => session w' !! "connection_checks" = None ∧
                    ∀ m w'', get_performance_metrics_body w' = (Ret m, w'') →
                             m_connection_checks m = VInt 0)
         (run_ops ops w).
Proof.
  revert w. induction ops as [|o ops IH]; intros w Hw; cbn [run_ops].
  - apply Forall_nil. exact I.
  - assert (Hk : "connection_checks" ∉ session_fields).
    { unfold session_fields. intros H.
      repeat (apply elem_of_cons in H as [H|H]; [discriminate H|]).
      now apply elem_of_nil in H. }
    assert (Hw' : session (snd (run_op o w)) !! "connection_checks" = None)
      by now rewrite run_op_frame.
    apply Forall_cons. split; [|now apply IH].
    split; [exact Hw'|].
    intros m w''. rewrite get_performance_metrics_body_run, Hw'.
    destruct (_ !! "page_load_count"); [|discriminate].
    destruct (_ !! "last_activity") as [[]|]; try discriminate.
    now intros [= <- _].
Qed.

(** X18. Cached metrics lag behind the session: once
    [get_performance_metrics] has returned [m] on an empty slot, a call
    with the slot it handed back returns [m] again whatever the session
    holds by then, without reading it. *)
Theorem metrics_served_from_cache (w w1 w2 : world) (m : metrics)
    (slot : option (metrics * list event)) :
  get_performance_metrics None w = (Ret m, w1, slot) →
  fst (get_performance_metrics slot w2) = (Ret m, w2).
Proof.
  unfold get_performance_metrics at 1.
  rewrite get_performance_metrics_body_run.
  destruct (session w !! "page_load_count") as [p|]; [|discriminate].
  destruct (session w !! "last_activity") as [[]|]; try discriminate.
  intros [= <- <- <-]. rewrite drop_all. cbn.
  f_equal. destruct w2. unfold set_trace. cbn. now rewrite app_nil_r.
Qed.

End WebPy.

(** ** The cached functions *)

Lemma elements_only (tr : list event) (name : string) :
  EvCall name ∉ filter is_element tr.
Proof. intros [H _]%list_elem_of_filter. exact H. Qed.

(** X13. The connection status is checked once per cache entry: after a
    call of [get_connection_status] on an empty slot has returned [b]
    (also the [False] of a failed connection), every call that finds that
    entry returns [b] and leaves the world as it is; [connect_to_milvus] is
    not called again, whatever it would answer now. *)
Theorem connection_status_cached (connect connect' : ext bool) (w w2 : world) (b : bool) :
  conn_cache w = None →
  fst (get_connection_status connect w) = Ret b →
  conn_cache w2 = conn_cache (snd (get_connection_status connect w)) →
  get_connection_status connect' w2 = (Ret b, w2).
Proof.
  intros Hnone Hret Hslot.
  unfold get_connection_status, st_cache in Hret, Hslot. rewrite Hnone in Hret, Hslot.
  assert (Hbody : ∃ w1, get_connection_status_body connect w = (Ret b, w1) ∧
                        trace w1 = trace w ++ [EvCall "connect_to_milvus"]).
  { unfold get_connection_status_body, try_except, call_ext, ret in *.
    destruct (connect (session w)) as [[b'|e|] s']; cbn in *;
      try discriminate; injection Hret as ->; eauto. }
  destruct Hbody as (w1 & Hb & Htr). rewrite Hb in Hslot. cbn in Hslot.
  rewrite Htr, drop_app_length in Hslot. cbn in Hslot.
  unfold get_connection_status, st_cache. rewrite Hslot.
  f_equal. destruct w2. unfold set_trace. cbn. now rewrite app_nil_r.
Qed.

(** X14. The chatbot is built at most once per cache entry: after
    [initialize_cached_chatbot] has returned [v] on an empty slot (a
    chatbot, or the [None] of a failed construction), every call that finds
    that entry returns [v] without calling [RnDChatbot] and without
    touching the session. *)
Theorem chatbot_built_once (available : bool) (build build' : ext nat)
    (str_exn : exn → string) (w w2 : world) (v : value) :
  chatbot_cache w = None →
  fst (initialize_cached_chatbot available build str_exn w) = Ret v →
  chatbot_cache w2 =
    chatbot_cache (snd (initialize_cached_chatbot available build str_exn w)) →
  fst (initialize_cached_chatbot available build' str_exn w2) = Ret v ∧
  session (snd (initialize_cached_chatbot available build' str_exn w2)) = session w2 ∧
  (EvCall "RnDChatbot" ∈ trace (snd (initialize_cached_chatbot available build' str_exn w2)) →
   EvCall "RnDChatbot" ∈ trace w2).
Proof.
  intros Hnone Hret Hslot.
  unfold initialize_cached_chatbot, st_cache in Hret, Hslot.
  rewrite Hnone in Hret, Hslot.
  destruct (initialize_cached_chatbot_body available build str_exn w)
    as [[v'|e|] w1]; cbn in Hret, Hslot; try discriminate.
  injection Hret as ->.
  unfold initialize_cached_chatbot, st_cache. rewrite Hslot. cbn.
  split; [reflexivity|]. split; [reflexivity|].
  intros [H|H]%elem_of_app; [exact H|].
  now apply elements_only in H.
Qed.

(** X15. The stylesheet is loaded once per cache entry, and a failure is
    not cached: after [load_cached_css] has returned [c] on an empty slot,
    a call that finds that entry returns [c] without calling
    [load_custom_css] and leaves the world as it is; when
    [load_custom_css] raises, the exception goes to the caller and the slot
    stays empty, so the next call tries again. *)
Theorem stylesheet_cached (css css' : ext string) (w w2 : world) :
  css_cache w = None →
  (∀ c, fst (load_cached_css css w) = Ret c →
        css_cache w2 = css_cache (snd (load_cached_css css w)) →
        load_cached_css css' w2 = (Ret c, w2)) ∧
  (∀ e s', css (session w) = (Raise e, s') →
           fst (load_cached_css css w) = Raise e ∧
           css_cache (snd (load_cached_css css w)) = None).
Proof.
  intros Hnone. unfold load_cached_css, st_cache. rewrite Hnone.
  unfold call_ext. split.
  - intros c Hret Hslot.
    destruct (css (session w)) as [[c'|e|] s']; cbn in Hret, Hslot;
      try discriminate.
    injection Hret as ->. rewrite drop_app_length in Hslot. cbn in Hslot.
    rewrite Hslot. f_equal. destruct w2. unfold set_trace. cbn.
    now rewrite app_nil_r.
  - intros e s' Hcss. rewrite Hcss. cbn. split; [reflexivity|exact Hnone].
Qed.

(** ** The time of day shown by the metrics *)

Lemma digit_inj (a b : Z) :
  0 ≤ a < 10 → 0 ≤ b < 10 → digit a = digit b → a = b.
Proof.
  intros Ha Hb H. unfold digit in H.
  apply (f_equal Ascii.nat_of_ascii) in H.
  rewrite !Ascii.nat_ascii_embedding in H by lia. lia.
Qed.

Lemma two_digits_then_inj (n n' : Z) (rest rest' : string) :
  0 ≤ n < 100 → 0 ≤ n' < 100 →
  two_digits_then n rest = two_digits_then n' rest' →
  n = n' ∧ rest = rest'.
Proof.
  intros Hn Hn'. unfold two_digits_then. intros [= H1 H2 H3].
  apply digit_inj in H1; [|Z.div_mod_to_equations; lia..].
  apply digit_inj in H2; [|Z.div_mod_to_equations; lia..].
  split; [|exact H3].
  revert H1 H2. Z.div_mod_to_equations. lia.
Qed.

Lemma String_tail_inj (c : Ascii.ascii) (x y : string) :
  String c x = String c y → x = y.
Proof. now intros [= ->]. Qed.

(** X19. The text of [strftime("%H:%M:%S")] is the time of day to the
    second: two stamps get the same text exactly when they fall in the same
    second of the day, whatever their dates and microseconds. *)
Theorem strftime_hms_same_second (t t' : Z) :
  strftime_hms t = strftime_hms t' ↔
  (t / 1000000) mod 86400 = (t' / 1000000) mod 86400.
Proof.
  unfold strftime_hms. cbv zeta.
  generalize (t / 1000000) (t' / 1000000). clear t t'. intros s s'.
  split.
  - intros H.
    apply two_digits_then_inj in H as [Hh H];
      [|Z.div_mod_to_equations; lia..].
    apply String_tail_inj in H.
    apply two_digits_then_inj in H as [Hm H];
      [|Z.div_mod_to_equations; lia..].
    apply String_tail_inj in H.
    apply two_digits_then_inj in H as [Hs _];
      [|Z.div_mod_to_equations; lia..].
    revert Hh Hm Hs. Z.div_mod_to_equations. lia.
  - intros H.
    assert (Hh : s / 3600 mod 24 = s' / 3600 mod 24)
      by (revert H; Z.div_mod_to_equations; lia).
    assert (Hm : s / 60 mod 60 = s' / 60 mod 60)
      by (revert H; Z.div_mod_to_equations; lia).
    assert (Hs : s mod 60 = s' mod 60)
      by (revert H; Z.div_mod_to_equations; lia).
    now rewrite Hh, Hm, Hs.
Qed.


(** ** The theorems at work on sample runs *)

(** C1 on a history of 52 entries: the two oldest go, the last 50 stay. *)
Lemma cleanup_caps_history_witness :
  ∃ l', session (snd (cleanup_old_data (clock_from 0)
                        (world_of {[ "chat_history" := VList long_history ]})))
          !! "chat_history" = Some (VList l') ∧
        length l' = 50%nat ∧
        ∃ evicted, long_history = evicted ++ l'.
Proof.
  destruct (cleanup_caps_history (clock_from 0)
              (world_of {[ "chat_history" := VList long_history ]}))
    as (_ & H & _).
  destruct (H long_history eq_refl) as (l' & Hl' & _ & Hcut & _).
  exists l'. split; [exact Hl'|].
  apply Hcut. vm_compute. lia.
Defined.

(** C2 on the stale session, read three hours later. *)
Lemma cleanup_stale_resets_connection_witness :
  fst (cleanup_old_data (clock_from (3 * 3600 * 1000000)) (world_of stale_session)) = Ret tt ∧
  session (snd (cleanup_old_data (clock_from (3 * 3600 * 1000000)) (world_of stale_session)))
    !! "connection_status" = Some VNone.
Proof.
  destruct (cleanup_stale_resets_connection (clock_from (3 * 3600 * 1000000))
              (world_of stale_session) [VObj 1] 0 eq_refl eq_refl)
    as (H1 & _ & H3 & _).
  - vm_compute. reflexivity.
  - split; [exact H1|exact H3].
Defined.

(** The stale session keeps its history and its counters: the strong reading
    of the expiry fails. *)
Lemma stale_cleanup_keeps_fields :
  session (world_of stale_session) !! "last_activity" = Some (VDatetime 0) ∧
  0 < clock_from (3 * 3600 * 1000000) 0 - two_hours ∧
  session (snd (cleanup_old_data (clock_from (3 * 3600 * 1000000)) (world_of stale_session)))
    !! "chat_history" = Some (VList [VObj 1]) ∧
  session (snd (cleanup_old_data (clock_from (3 * 3600 * 1000000)) (world_of stale_session)))
    !! "page_load_count" = Some (VInt 3) ∧
  ¬ stale_cleanup_clears_fields (clock_from (3 * 3600 * 1000000)).
Proof.
  split; [reflexivity|]. split; [vm_compute; reflexivity|].
  split; [vm_compute; reflexivity|]. split; [vm_compute; reflexivity|].
  intros H.
  specialize (H (world_of stale_session) 0 eq_refl).
  assert (Hk : "chat_history" ∈ session_fields).
  { unfold session_fields. repeat (apply elem_of_cons; first [left; reflexivity | right]). }
  specialize (H ltac:(vm_compute; reflexivity) "chat_history" Hk).
  vm_compute in H. destruct H as [H|H]; discriminate H.
Qed.

(** C3 on a run whose chat interface fails, with the reset button pressed. *)
Lemma reset_clears_session_witness :
  fst (handle_app_errors true (ext_ret "css") (ext_raise (OtherError "boom"))
         (clock_from 0) (fun _ => true) exn_text (world_of stale_session)) = Rerun ∧
  session (snd (handle_app_errors true (ext_ret "css") (ext_raise (OtherError "boom"))
                  (clock_from 0) (fun _ => true) exn_text (world_of stale_session))) = ∅.
Proof.
  destruct (reset_clears_session true (ext_ret "css")
              (ext_raise (OtherError "boom")) (clock_from 0) (fun _ => true)
              exn_text (world_of stale_session)
              (snd (main true (ext_ret "css") (ext_raise (OtherError "boom"))
                      (clock_from 0) (world_of stale_session)))
              (OtherError "boom"))
    as (H1 & H2 & _).
  - vm_compute. reflexivity.
  - reflexivity.
  - split; [exact H1|exact H2].
Defined.

(** C4 on a connection that fails and on one that succeeds. *)
Lemma get_connection_status_boolean_witness :
  fst (get_connection_status_body (ext_raise (OtherError "refused")) empty_world) = Ret false ∧
  fst (get_connection_status_body (ext_ret true) empty_world) = Ret true.
Proof.
  split.
  - destruct (get_connection_status_boolean (ext_raise (OtherError "refused")) empty_world)
      as (H & _).
    exact (H (OtherError "refused") ∅ eq_refl).
  - destruct (get_connection_status_boolean (ext_ret true) empty_world)
      as (_ & H & _).
    exact (H true ∅ eq_refl).
Defined.

(** C5 on a run whose chat interface fails: the message is rendered last
    but for the button, and nothing is raised. *)
Lemma main_exceptions_rendered_witness :
  fst (handle_app_errors true (ext_ret "css") (ext_raise (OtherError "boom"))
         (clock_from 0) (fun _ => false) exn_text empty_world) = Ret tt ∧
  contains "boom" (error_message exn_text (OtherError "boom")) ∧
  contains remediation_steps (error_message exn_text (OtherError "boom")).
Proof.
  destruct (main_exceptions_rendered true (ext_ret "css")
              (ext_raise (OtherError "boom")) (clock_from 0) (fun _ => false)
              exn_text empty_world) as (_ & H).
  destruct (H (OtherError "boom")
              (snd (main true (ext_ret "css") (ext_raise (OtherError "boom"))
                      (clock_from 0) empty_world)))
    as (H1 & _ & H3 & H4).
  - vm_compute. reflexivity.
  - split; [exact H1|]. split; [exact H3|exact H4].
Defined.

(** C6 without the import, and with a constructor that fails. *)
Lemma chatbot_construction_guarded_witness :
  initialize_cached_chatbot_body false (ext_ret 7%nat) exn_text empty_world =
    (Ret VNone, empty_world) ∧
  fst (setup_chatbot_optimized false (world_of stale_session)) = Ret (VBool false) ∧
  fst (initialize_cached_chatbot_body true (ext_raise (OtherError "no model"))
         exn_text empty_world) = Ret VNone.
Proof.
  split; [|split].
  - destruct (chatbot_construction_guarded false (ext_ret 7%nat) exn_text empty_world)
      as (H & _).
    destruct (H eq_refl) as (H1 & _). exact H1.
  - destruct (chatbot_construction_guarded false (ext_ret 7%nat) exn_text
                (world_of stale_session)) as (H & _).
    destruct (H eq_refl) as (_ & _ & _ & H4). apply H4.
    exists (VInt 3). vm_compute. reflexivity.
  - destruct (chatbot_construction_guarded true (ext_raise (OtherError "no model"))
                exn_text empty_world) as (_ & H & _).
    destruct (H eq_refl (OtherError "no model") ∅ eq_refl) as (H1 & _).
    exact H1.
Defined.

(** C7 on the first page load. *)
Lemma initialize_defines_fields_witness :
  fst (initialize_session_state (clock_from 0) empty_world) = Ret tt ∧
  all_fields_defined (session (snd (initialize_session_state (clock_from 0) empty_world))).
Proof.
  destruct (initialize_defines_fields true (clock_from 0) empty_world)
    as (H1 & H2 & _).
  - split; intros [v Hv]; vm_compute in Hv; discriminate Hv.
  - split.
    + apply H2. left. reflexivity.
    + destruct (H1 (snd (initialize_session_state (clock_from 0) empty_world)))
        as (H & _); [|exact H].
      vm_compute. reflexivity.
Defined.

(** A session with a broken block leaves [initialize_session_state] without
    [chat_history], and the reads that follow fail. *)
Lemma partial_session_stays_partial :
  fst (initialize_session_state (clock_from 0) (world_of partial_session)) = Ret tt ∧
  session (snd (initialize_session_state (clock_from 0) (world_of partial_session)))
    !! "chat_history" = None ∧
  fst (cleanup_old_data (clock_from 0)
         (snd (initialize_session_state (clock_from 0) (world_of partial_session)))) =
    Raise (AttributeError "chat_history") ∧
  ¬ init_defines_all_fields (clock_from 0).
Proof.
  split; [vm_compute; reflexivity|]. split; [vm_compute; reflexivity|].
  split; [vm_compute; reflexivity|].
  intros H.
  specialize (H (world_of partial_session)
                (snd (initialize_session_state (clock_from 0) (world_of partial_session)))
                ltac:(vm_compute; reflexivity)).
  unfold all_fields_defined, session_fields in H.
  do 5 apply Forall_cons in H as [_ H].
  apply Forall_cons in H as [[v Hv] _].
  vm_compute in Hv. discriminate Hv.
Qed.

(** C8 on the three steps of a page load with a ticking clock. *)
Lemma last_activity_monotone_witness :
  stamps_ascend empty_world
    (run_ops true (clock_from 0) [OpInit; OpSetup; OpCleanup; OpInit] empty_world).
Proof.
  destruct (last_activity_monotone true (clock_from 0)
              [OpInit; OpSetup; OpCleanup; OpInit] empty_world) as (H & _).
  - intros i j Hij. unfold clock_from. lia.
  - intros t Ht. vm_compute in Ht. discriminate Ht.
  - exact H.
Defined.

(** C9 on a short history with a fresh stamp, and on the stale session. *)
Lemma cleanup_frame_witness :
  session (snd (cleanup_old_data (clock_from 5)
                  (world_of (<["last_activity" := VDatetime 4]>
                               {[ "chat_history" := VList long_history ]}))))
    !! "last_activity" = Some (VDatetime 4) ∧
  session (snd (cleanup_old_data (clock_from 5)
                  (world_of (<["last_activity" := VDatetime 4]>
                               {[ "chat_history" := VList [VObj 1] ]})))) =
    <["last_activity" := VDatetime 4]> {[ "chat_history" := VList [VObj 1] ]}.
Proof.
  split.
  - destruct (cleanup_frame (clock_from 5)
                (world_of (<["last_activity" := VDatetime 4]>
                             {[ "chat_history" := VList long_history ]})))
      as (_ & (_ & _ & _ & _ & H) & _).
    rewrite H. vm_compute. reflexivity.
  - destruct (cleanup_frame (clock_from 5)
                (world_of (<["last_activity" := VDatetime 4]>
                             {[ "chat_history" := VList [VObj 1] ]})))
      as (_ & _ & H).
    destruct (H [VObj 1] 4) as (_ & H2 & _).
    + vm_compute. reflexivity.
    + vm_compute. lia.
    + vm_compute. reflexivity.
    + vm_compute. intros Hlt. discriminate Hlt.
    + exact H2.
Defined.

(** C10 after a first page load: the flag set by [setup_chatbot_optimized]
    survives further page loads. *)
Lemma setup_never_builds_chatbot_witness :
  Forall (fun w' => session w' !! "chatbot_loading" = Some (VBool true))
    (run_ops true (clock_from 0) [OpInit; OpSetup; OpCleanup; OpInit; OpSetup]
       (snd (setup_chatbot_optimized true
               (snd (initialize_session_state (clock_from 0) empty_world))))).
Proof.
  destruct (setup_never_builds_chatbot true (clock_from 0)
              (snd (setup_chatbot_optimized true
                      (snd (initialize_session_state (clock_from 0) empty_world)))))
    as (_ & _ & _ & H).
  eapply Forall_impl.
  - apply H.
    + vm_compute. reflexivity.
    + exists (VBool false). vm_compute. reflexivity.
  - intros w' [Hl _]. exact Hl.
Defined.

(** The reset of [handle_app_errors] followed by a page load brings
    [chatbot_loading] back to [False]; and a session that defines
    [chatbot_initialized] without [chatbot_loading] makes
    [setup_chatbot_optimized] raise instead of returning. *)
Lemma loading_flag_reset_by_reload :
  session (snd (setup_chatbot_optimized true
                  (snd (initialize_session_state (clock_from 0) empty_world))))
    !! "chatbot_loading" = Some (VBool true) ∧
  session (run_calls true (clock_from 0) [CallReset; CallOp OpInit]
             (snd (setup_chatbot_optimized true
                     (snd (initialize_session_state (clock_from 0) empty_world)))))
    !! "chatbot_loading" = Some (VBool false) ∧
  ¬ loading_never_reset true (clock_from 0) ∧
  fst (setup_chatbot_optimized true (world_of partial_session)) =
    Raise (AttributeError "chatbot_loading") ∧
  ¬ setup_returns_previous true.
Proof.
  split; [vm_compute; reflexivity|]. split; [vm_compute; reflexivity|].
  split; [|split; [vm_compute; reflexivity|]].
  - intros H.
    apply (H [CallReset; CallOp OpInit]
             (snd (setup_chatbot_optimized true
                     (snd (initialize_session_state (clock_from 0) empty_world)))));
      vm_compute; reflexivity.
  - intros H.
    specialize (H (world_of partial_session) (VBool false) eq_refl).
    vm_compute in H. discriminate H.
Qed.

(** ** The further properties at work on sample runs *)

(** X1 after three page loads of a new session. *)
Lemma page_load_count_counts_witness :
  session (page_loads (clock_from 0) 3 empty_world) !! "page_load_count" =
    Some (VInt 3).
Proof.
  destruct (page_load_count_counts (clock_from 0) empty_world 2) as [H _].
  exact (H eq_refl).
Defined.

(** X2 on the chat history of the stale session. *)
Lemma reload_keeps_fields_witness :
  session (snd (initialize_session_state (clock_from 0)
                  (snd (initialize_session_state (clock_from 0) (world_of stale_session)))))
    !! "chat_history" =
  session (snd (initialize_session_state (clock_from 0) (world_of stale_session)))
    !! "chat_history".
Proof.
  apply (reload_keeps_fields (clock_from 0) (world_of stale_session) "chat_history");
    discriminate.
Defined.

(** X3 on a first page load: two readings, the second one is stored. *)
Lemma initialize_refreshes_stamp_witness :
  session (snd (initialize_session_state (clock_from 7) empty_world))
    !! "last_activity" = Some (VDatetime (clock_from 7 1)).
Proof.
  destruct (initialize_refreshes_stamp (clock_from 7) empty_world
              (snd (initialize_session_state (clock_from 7) empty_world)))
    as [H _].
  - vm_compute. reflexivity.
  - exact H.
Defined.

(** X4 on a counter that holds [None]. *)
Lemma initialize_type_error_witness :
  fst (initialize_session_state (clock_from 0)
         (world_of {[ "page_load_count" := VNone ]})) = Raise (TypeError "+").
Proof.
  destruct (initialize_type_error (clock_from 0)
              (world_of {[ "page_load_count" := VNone ]}) VNone)
    as [H _]; [reflexivity|discriminate|discriminate|exact H].
Defined.

(** X5 on the first and on the third page load. *)
Lemma import_warning_first_load_only_witness :
  trace (snd (setup_chatbot_optimized false (page_loads (clock_from 0) 1 empty_world))) =
    [EvWarning import_warning] ∧
  trace (snd (setup_chatbot_optimized false (page_loads (clock_from 0) 3 empty_world))) = [].
Proof.
  split.
  - destruct (import_warning_first_load_only false (clock_from 0) empty_world 0
                eq_refl eq_refl) as [_ H].
    exact H.
  - destruct (import_warning_first_load_only false (clock_from 0) empty_world 2
                eq_refl eq_refl) as [_ H].
    exact H.
Defined.

(** X7 on the empty session and on a long history without a stamp. *)
Lemma cleanup_old_data_failures_witness :
  cleanup_old_data (clock_from 0) empty_world =
    (Raise (AttributeError "chat_history"), empty_world) ∧
  fst (cleanup_old_data (clock_from 0)
         (world_of {[ "chat_history" := VList long_history ]})) =
    Raise (AttributeError "last_activity").
Proof.
  split.
  - destruct (cleanup_old_data_failures (clock_from 0) empty_world) as [H _].
    exact (H eq_refl).
  - destruct (cleanup_old_data_failures (clock_from 0)
                (world_of {[ "chat_history" := VList long_history ]}))
      as (_ & _ & H & _).
    destruct (H long_history eq_refl eq_refl) as [H1 _]. exact H1.
Defined.

(** X9 on a run whose chat interface asks for a rerun. *)
Lemma handle_app_errors_transparent_witness :
  handle_app_errors true (ext_ret "css") (fun s => (Rerun, s)) (clock_from 0)
    (fun _ => true) exn_text empty_world =
  main true (ext_ret "css") (fun s => (Rerun, s)) (clock_from 0) empty_world.
Proof.
  destruct (handle_app_errors_transparent true (ext_ret "css") (fun s => (Rerun, s))
              (clock_from 0) (fun _ => true) exn_text empty_world) as [H _].
  apply H. intros e. vm_compute. discriminate.
Defined.

(** X11 on a key of the chat interface's own. *)
Lemma main_frame_witness :
  session (snd (main true (ext_ret "css") (ext_ret tt) (clock_from 0)
                  (world_of {[ "draft" := VInt 4 ]}))) !! "draft" = Some (VInt 4).
Proof.
  rewrite (main_frame true (ext_ret "css") (ext_ret tt) (clock_from 0)
             (world_of {[ "draft" := VInt 4 ]}) "draft").
  - reflexivity.
  - unfold session_fields. intros H.
    repeat (apply elem_of_cons in H as [H|H]; [discriminate H|]).
    now apply elem_of_nil in H.
  - intros s. reflexivity.
  - intros s. reflexivity.
Defined.

(** X12 on a session whose stamp is old: [main] refreshes the stamp first,
    so the recorded connection status survives. *)
Lemma main_keeps_connection_witness :
  session (snd (main true (ext_ret "css") (ext_ret tt) (clock_from (3 * 3600 * 1000000))
                  (world_of (<["app_initialized" := VBool true]> stale_session))))
    !! "connection_status" = Some (VBool true).
Proof.
  rewrite (main_keeps_connection true (ext_ret "css") (ext_ret tt)
             (clock_from (3 * 3600 * 1000000))
             (world_of (<["app_initialized" := VBool true]> stale_session))
             "connection_status").
  - vm_compute. reflexivity.
  - left. reflexivity.
  - exists (VBool true). vm_compute. reflexivity.
  - intros s. reflexivity.
  - intros s. reflexivity.
  - intros s. reflexivity.
  - intros s. reflexivity.
  - intros i. unfold clock_from, two_hours. lia.
Defined.

(** X13 on a failed check followed by a call while the backend is up. *)
Lemma connection_status_cached_witness :
  get_connection_status (ext_ret true)
    (snd (get_connection_status (ext_raise (OtherError "refused")) empty_world)) =
  (Ret false, snd (get_connection_status (ext_raise (OtherError "refused")) empty_world)).
Proof.
  apply (connection_status_cached (ext_raise (OtherError "refused")) (ext_ret true)
           empty_world); reflexivity.
Defined.

(** X14 on a failed construction followed by a call with a working
    constructor. *)
Lemma chatbot_built_once_witness :
  fst (initialize_cached_chatbot true (ext_ret 7%nat) exn_text
         (snd (initialize_cached_chatbot true (ext_raise (OtherError "no model"))
                 exn_text empty_world))) = Ret VNone.
Proof.
  destruct (chatbot_built_once true (ext_raise (OtherError "no model")) (ext_ret 7%nat)
              exn_text empty_world
              (snd (initialize_cached_chatbot true (ext_raise (OtherError "no model"))
                      exn_text empty_world))
              VNone) as [H _]; [reflexivity|reflexivity|reflexivity|exact H].
Defined.

(** X15 on a stylesheet that loads, and on one that fails. *)
Lemma stylesheet_cached_witness :
  load_cached_css (ext_raise (OtherError "gone"))
    (snd (load_cached_css (ext_ret "css") empty_world)) =
    (Ret "css", snd (load_cached_css (ext_ret "css") empty_world)) ∧
  css_cache (snd (load_cached_css (ext_raise (OtherError "gone")) empty_world)) = None.
Proof.
  split.
  - destruct (stylesheet_cached (ext_ret "css") (ext_raise (OtherError "gone"))
                empty_world (snd (load_cached_css (ext_ret "css") empty_world))
                eq_refl) as [H _].
    apply H; reflexivity.
  - destruct (stylesheet_cached (ext_raise (OtherError "gone")) (ext_ret "css")
                empty_world empty_world eq_refl) as [_ H].
    destruct (H (OtherError "gone") ∅ eq_refl) as [_ H2]. exact H2.
Defined.

(** X16 before and after the first page load, read at 01:01:01. *)
Lemma metrics_after_page_load_witness :
  get_performance_metrics_body empty_world =
    (Raise (AttributeError "page_load_count"), empty_world) ∧
  ∃ m, fst (get_performance_metrics_body
              (snd (initialize_session_state (clock_from 3661000000) empty_world))) = Ret m ∧
       m_last_activity m = strftime_hms (clock_from 3661000000 1).
Proof.
  destruct (metrics_after_page_load (clock_from 3661000000) empty_world) as [H1 H2].
  split; [exact (H1 eq_refl)|].
  destruct (H2 (snd (initialize_session_state (clock_from 3661000000) empty_world)))
    as (m & Hm & _ & Ht).
  - vm_compute. reflexivity.
  - exists m. rewrite Hm. split; [reflexivity|exact Ht].
Defined.

(** X17 along the steps of two page loads. *)
Lemma connection_checks_stay_zero_witness :
  Forall (fun w' => session w' !! "connection_checks" = None)
    (run_ops true (clock_from 0) [OpInit; OpSetup; OpCleanup; OpInit] empty_world).
Proof.
  eapply Forall_impl.
  - apply (connection_checks_stay_zero true (clock_from 0)
             [OpInit; OpSetup; OpCleanup; OpInit] empty_world).
    reflexivity.
  - intros w' [H _]. exact H.
Defined.

(** X18: metrics cached after the first page load still say one page load
    after the third. *)
Lemma metrics_served_from_cache_witness :
  ∃ m slot,
    get_performance_metrics None (page_loads (clock_from 0) 1 empty_world) =
      (Ret m, page_loads (clock_from 0) 1 empty_world, slot) ∧
    m_page_loads m = VInt 1 ∧
    fst (get_performance_metrics slot (page_loads (clock_from 0) 3 empty_world)) =
      (Ret m, page_loads (clock_from 0) 3 empty_world).
Proof.
  eexists _, _. split; [vm_compute; reflexivity|]. split; [reflexivity|].
  eapply (metrics_served_from_cache (page_loads (clock_from 0) 1 empty_world)).
  vm_compute. reflexivity.
Defined.
